(** * The concurrent crawl engine of crab/crawling.go

    A shallow embedding of [isURLAllowedByRobotsTXT], [crawlURL],
    [createSiteMap] and [threadedCrawl], together with the parts of the Go
    standard library (net/url, net/http) and of colly's collector that
    decide what these functions return.  *)

From Stdlib Require Import ZArith Lia Ascii String.
From stdpp Require Import base option list strings gmap.

Local Open Scope string_scope.

(** ** Go's [strings] package, on byte strings *)

Module strings.

Definition HasPrefix (s prefix : string) : bool := String.prefix prefix s.

Fixpoint drop (n : nat) (s : string) : string :=
  match n, s with
  | O, _ => s
  | S n', String _ s' => drop n' s'
  | S _, EmptyString => EmptyString
  end.

(** [s[:n]] *)
Definition take (n : nat) (s : string) : string := String.substring 0 n s.

Definition HasSuffix (s suffix : string) : bool :=
  (String.length suffix <=? String.length s)%nat
  && String.eqb (drop (String.length s - String.length suffix) s) suffix.

(** [strings.Index]: [None] stands for -1. *)
Fixpoint Index (s substr : string) : option nat :=
  if String.prefix substr s then Some O
  else match s with
       | EmptyString => None
       | String _ s' => S <$> Index s' substr
       end.

Fixpoint LastIndex (s substr : string) : option nat :=
  match s with
  | EmptyString => if String.eqb substr "" then Some O else None
  | String _ s' =>
      match LastIndex s' substr with
      | Some i => Some (S i)
      | None => if String.prefix substr s then Some O else None
      end
  end.

Definition Contains (s substr : string) : bool := bool_decide (is_Some (Index s substr)).

(** [strings.Cut]: before, after, found. *)
Definition Cut (s sep : string) : string * string * bool :=
  match Index s sep with
  | Some i => (take i s, drop (i + String.length sep) s, true)
  | None => (s, "", false)
  end.

(** [strings.Count(s, c)] for a one-byte separator [c]. *)
Fixpoint CountByte (s : string) (c : ascii) : nat :=
  match s with
  | EmptyString => O
  | String b s' => (if Ascii.eqb b c then 1 else 0) + CountByte s' c
  end.

Definition lower (c : ascii) : ascii :=
  let n := nat_of_ascii c in
  if (65 <=? n)%nat && (n <=? 90)%nat then ascii_of_nat (n + 32) else c.

(** [strings.ToLower], on the ASCII letters (all a scheme can hold). *)
Fixpoint ToLower (s : string) : string :=
  match s with
  | EmptyString => EmptyString
  | String c s' => String (lower c) (ToLower s')
  end.

End strings.

(** ** Go's [net/url]: [url.Parse]

    The parser is followed function by function; [None] is a non-nil
    error.  Of the [URL] struct the fields set by the parser are kept,
    the user information is validated and dropped. *)

Module url.

Record URL := mkURL {
  Scheme : string;
  Opaque : string;
  Host : string;
  Path : string;
  RawQuery : string;
  Fragment : string
}.

Inductive encoding :=
| encodePath | encodePathSegment | encodeHost | encodeZone
| encodeUserPassword | encodeQueryComponent | encodeFragment.

Definition byte (c : ascii) : nat := nat_of_ascii c.

Definition between (lo hi : nat) (c : ascii) : bool :=
  (lo <=? byte c)%nat && (byte c <=? hi)%nat.

Definition is_lower (c : ascii) : bool := between 97 122 c.
Definition is_upper (c : ascii) : bool := between 65 90 c.
Definition is_digit (c : ascii) : bool := between 48 57 c.
Definition is_alnum (c : ascii) : bool := is_lower c || is_upper c || is_digit c.

Definition one_of (bs : list nat) (c : ascii) : bool :=
  bool_decide (byte c ∈ bs).

Definition ishex (c : ascii) : bool :=
  is_digit c || between 97 102 c || between 65 70 c.

Definition unhex (c : ascii) : nat :=
  if is_digit c then byte c - 48
  else if between 97 102 c then byte c - 97 + 10
  else if between 65 70 c then byte c - 65 + 10
  else 0.

(** [shouldEscape(c, encodeHost)]: the alphanumerics, the bytes the host
    case lists (sub-delimiters, colon, square and angle brackets, double
    quote) and the unreserved marks (hyphen, underscore, dot, tilde) are
    not escaped; every other byte is. *)
Definition shouldEscape_host (c : ascii) : bool :=
  negb (is_alnum c
        || one_of [33; 36; 38; 39; 40; 41; 42; 43; 44; 59; 61; 58; 91; 93; 60; 62; 34] c
        || one_of [45; 95; 46; 126] c).

Definition is_host_mode (mode : encoding) : bool :=
  match mode with encodeHost | encodeZone => true | _ => false end.

(** [unescape(s, mode)]: the well-formedness pass and the decoding pass
    of the source in one traversal. *)
Fixpoint unescape (s : string) (mode : encoding) : option string :=
  match s with
  | EmptyString => Some EmptyString
  | String c s' =>
      if Ascii.eqb c "%" then
        match s' with
        | String h1 (String h2 rest) =>
            if negb (ishex h1 && ishex h2) then None
            else
              let is25 := Ascii.eqb h1 "2" && Ascii.eqb h2 "5" in
              let v := ascii_of_nat (unhex h1 * 16 + unhex h2) in
              match mode with
              | encodeHost =>
                  if (unhex h1 <? 8)%nat && negb is25 then None
                  else String v <$> unescape rest mode
              | encodeZone =>
                  if negb is25 && negb (Ascii.eqb v " ") && shouldEscape_host v
                  then None
                  else String v <$> unescape rest mode
              | _ => String v <$> unescape rest mode
              end
        | _ => None
        end
      else if Ascii.eqb c "+" then
        String (match mode with encodeQueryComponent => " "%char | _ => c end)
          <$> unescape s' mode
      else if is_host_mode mode && (byte c <? 128)%nat && shouldEscape_host c
      then None
      else String c <$> unescape s' mode
  end.

Fixpoint stringContainsCTLByte (s : string) : bool :=
  match s with
  | EmptyString => false
  | String b s' => (byte b <? 32)%nat || (byte b =? 127)%nat || stringContainsCTLByte s'
  end.

(** The loop of [getScheme]: [i] is the index of the first byte of
    [rest] in [rawURL]; the result is (scheme, path). *)
Fixpoint getScheme_from (rawURL : string) (i : nat) (rest : string)
  : option (string * string) :=
  match rest with
  | EmptyString => Some ("", rawURL)
  | String c rest' =>
      if is_lower c || is_upper c then getScheme_from rawURL (S i) rest'
      else if is_digit c || one_of [43; 45; 46] c then
        (if (i =? 0)%nat then Some ("", rawURL)
         else getScheme_from rawURL (S i) rest')
      else if Ascii.eqb c ":" then
        (if (i =? 0)%nat then None
         else Some (strings.take i rawURL, rest'))
      else Some ("", rawURL)
  end.

Definition getScheme (rawURL : string) : option (string * string) :=
  getScheme_from rawURL 0 rawURL.

Fixpoint all_bytes (p : ascii -> bool) (s : string) : bool :=
  match s with
  | EmptyString => true
  | String b s' => p b && all_bytes p s'
  end.

Definition validOptionalPort (port : string) : bool :=
  match port with
  | EmptyString => true
  | String c digits => Ascii.eqb c ":" && all_bytes is_digit digits
  end.

Definition validUserinfo (s : string) : bool :=
  all_bytes (fun r =>
    is_alnum r
    || one_of [45; 46; 95; 58; 126; 33; 36; 38; 39; 40; 41; 42; 43; 44; 59; 61; 37; 64] r) s.

Definition parseHost (host : string) : option string :=
  if strings.HasPrefix host "[" then
    match strings.LastIndex host "]" with
    | None => None
    | Some i =>
        let colonPort := strings.drop (i + 1) host in
        if negb (validOptionalPort colonPort) then None
        else
          match strings.Index (strings.take i host) "%25" with
          | Some zone =>
              host1 ← unescape (strings.take zone host) encodeHost;
              host2 ← unescape (strings.drop zone (strings.take i host)) encodeZone;
              host3 ← unescape (strings.drop i host) encodeHost;
              Some (host1 +:+ host2 +:+ host3)
          | None => unescape host encodeHost
          end
    end
  else
    match strings.LastIndex host ":" with
    | Some i =>
        if negb (validOptionalPort (strings.drop i host)) then None
        else unescape host encodeHost
    | None => unescape host encodeHost
    end.

(** [parseAuthority]: the host, once host and user information are
    both accepted. *)
Definition parseAuthority (authority : string) : option string :=
  match strings.LastIndex authority "@" with
  | None => parseHost authority
  | Some i =>
      host ← parseHost (strings.drop (i + 1) authority);
      let userinfo := strings.take i authority in
      if negb (validUserinfo userinfo) then None
      else if negb (strings.Contains userinfo ":") then
        _ ← unescape userinfo encodeUserPassword; Some host
      else
        let '(username, password, _) := strings.Cut userinfo ":" in
        _ ← unescape username encodeUserPassword;
        _ ← unescape password encodeUserPassword;
        Some host
  end.

(** [parse(rawURL, viaRequest)] with [viaRequest = false], as [Parse]
    calls it. *)
Definition parse (rawURL : string) : option URL :=
  if stringContainsCTLByte rawURL then None
  else if String.eqb rawURL "*" then Some (mkURL "" "" "" "*" "" "")
  else
    '(scheme, rest) ← getScheme rawURL;
    let scheme := strings.ToLower scheme in
    let '(rest, rawQuery) :=
      if strings.HasSuffix rest "?" && (strings.CountByte rest "?" =? 1)%nat
      then (strings.take (String.length rest - 1) rest, "")
      else let '(before, after, _) := strings.Cut rest "?" in (before, after) in
    if negb (strings.HasPrefix rest "/") && negb (String.eqb scheme "")
    then Some (mkURL scheme rest "" "" rawQuery "")
    else if negb (strings.HasPrefix rest "/")
            && strings.Contains (strings.Cut rest "/").1.1 ":"
    then None
    else
      '(host, rest) ←
        (if (negb (String.eqb scheme "") || negb (strings.HasPrefix rest "///"))
            && strings.HasPrefix rest "//"
         then
           let authority := strings.drop 2 rest in
           let '(authority, rest) :=
             match strings.Index authority "/" with
             | Some i => (strings.take i authority, strings.drop i authority)
             | None => (authority, "")
             end in
           host ← parseAuthority authority; Some (host, rest)
         else Some ("", rest));
      path ← unescape rest encodePath;
      Some (mkURL scheme "" host path rawQuery "").

(** [url.Parse]: the fragment is cut off first and set last. *)
Definition Parse (rawURL : string) : option URL :=
  let '(u, frag, _) := strings.Cut rawURL "#" in
  url ← parse u;
  if String.eqb frag "" then Some url
  else
    f ← unescape frag encodeFragment;
    Some (mkURL (Scheme url) (Opaque url) (Host url) (Path url) (RawQuery url) f).

End url.

(** ** The data of crawling.go *)

Local Open Scope Z_scope.
Local Open Scope list_scope.

Definition error := string.

(** [URLData]: [Created] is a time stamp, [Links] a slice ([nil] is []). *)
Record URLData := mkURLData {
  URL : string;
  Created : Z;
  Links : list string
}.

(** The lines the engine prints with [fmt] and [log]. *)
Inductive LogLine :=
| ErrorParsingURL (urlStr : string)
| ErrorFetchingRobots (robotsURL : string)
| ErrorParsingRobots (robotsURL : string)
| ErrorWhileCrawling (u : string) (err : error)
| FoundLink (link : string)
| CrawledURL (u : string)
| Non200Status (u : string) (code : Z)
| ErrorWritingSitemap (err : error)
| SitemapCreated
| StartingCrawling
| CrawlingURL (u : string)
| WaitingForCrawlers
| AllGoroutinesFinished
| ErrorCreatingSitemap (err : error).

(** ** The world outside the process

    What the network, the robots.txt engine, the HTML parser, the JSON
    encoder, the file system and the user-agent table answer.  Every
    theorem below holds for all worlds unless it names one. *)

(** The answer to the plain GET of a robots.txt document. *)
Record http_Response := mkHttpResponse {
  http_StatusCode : Z;
  http_Body : string
}.

(** A node of a fetched document, with its attributes. *)
Record HTMLNode := mkNode { node_attrs : list (string * string) }.

(** The answer to a collector's GET: [Find sel] lists the nodes that the
    selector [sel] matches, in document order. *)
Record Response := mkResponse {
  StatusCode : Z;
  ContentTypeHTML : bool;
  Find : string -> list HTMLNode
}.

Record World := mkWorld {
  (** temoto/robotstxt: the parsed policy, [FromResponse], [TestAgent] *)
  RobotsData : Type;
  FromResponse : http_Response -> option RobotsData;
  TestAgent : RobotsData -> string -> string -> bool;
  (** the transport of [http.Get], asked only for a URL with a host *)
  RoundTrip : string -> option http_Response;
  (** the HTTP backend of a collector: [None] when the request fails *)
  backend : string -> option Response;
  (** [Request.AbsoluteURL]: request URL, then the reference to resolve *)
  AbsoluteURL : string -> string -> string;
  (** the user-agent table: the answer to a goroutine's n-th call *)
  GetRandomUserAgent : nat -> string;
  (** [json.Marshal] of the site map: the bytes, and the error *)
  json_Marshal : gmap string (list string) -> string * option error;
  (** the error, if any, of writing the named file *)
  WriteFile_error : string -> string -> option error
}.

(** [http.Get]: the request is built from the parsed URL; the transport
    refuses a URL without a host before anything is sent. *)
Definition http_Get (w : World) (u : string) : option http_Response :=
  match url.Parse u with
  | None => None
  | Some p => if String.eqb (url.Host p) "" then None else RoundTrip w u
  end.

(** ** The robots policy gate *)

Definition isURLAllowedByRobotsTXT (w : World) (urlStr : string)
  : bool * list LogLine :=
  match url.Parse urlStr with
  | None => (false, [ErrorParsingURL urlStr])
  | Some parsedURL =>
      let domain := url.Host parsedURL in
      let robotsURL := "http://" +:+ domain +:+ "/robots.txt" in
      match http_Get w robotsURL with
      | None => (true, [ErrorFetchingRobots robotsURL])
      | Some resp =>
          match FromResponse w resp with
          | None => (true, [ErrorParsingRobots robotsURL])
          | Some data => (TestAgent w data urlStr "GoEngine", [])
          end
      end
  end.

(** ** colly's collector *)

Record LimitRule := mkLimitRule {
  DomainGlob : string;
  Delay : Z;        (* nanoseconds *)
  RandomDelay : Z
}.

Definition Second : Z := 1000000000.

(** A request a collector's backend sent, with the limit rules that
    backend holds at that moment. *)
Record Request := mkRequest {
  req_URL : string;
  req_UserAgent : string;
  req_LimitRules : list LimitRule
}.

(** What a goroutine running [crawlURL] reads and writes: its own copy
    [urlData] of the task (the variable the callbacks close over), what
    it has sent on [ch] (oldest first), the wait-group counter, the lines
    printed, the requests its collectors sent, and how many user agents
    it has drawn. *)
Record WState := mkWState {
  urlData : URLData;
  ch : list URLData;
  wg : Z;
  out : list LogLine;
  wire : list Request;
  draws : nat
}.

Definition set_urlData (u : URLData) (s : WState) : WState :=
  mkWState u (ch s) (wg s) (out s) (wire s) (draws s).
Definition send (u : URLData) (s : WState) : WState :=
  mkWState (urlData s) (ch s ++ [u]) (wg s) (out s) (wire s) (draws s).
Definition wg_Done (s : WState) : WState :=
  mkWState (urlData s) (ch s) (wg s - 1) (out s) (wire s) (draws s).
Definition println (l : list LogLine) (s : WState) : WState :=
  mkWState (urlData s) (ch s) (wg s) (out s ++ l) (wire s) (draws s).
Definition on_wire (r : Request) (s : WState) : WState :=
  mkWState (urlData s) (ch s) (wg s) (out s) (wire s ++ [r]) (draws s).
Definition draw (w : World) (s : WState) : string * WState :=
  (GetRandomUserAgent w (draws s),
   mkWState (urlData s) (ch s) (wg s) (out s) (wire s) (S (draws s))).

(** The element handed to an [OnHTML] callback. *)
Record HTMLElement := mkElement {
  elem_node : HTMLNode;
  elem_Request : string   (* the URL of the request *)
}.

Definition Attr (e : HTMLElement) (k : string) : string :=
  match List.find (fun kv => String.eqb kv.1 k) (node_attrs (elem_node e)) with
  | Some kv => kv.2
  | None => ""
  end.

Record Collector := mkCollector {
  UserAgent : string;
  LimitRules : list LimitRule;
  errorCallbacks : list (option Response -> error -> WState -> WState);
  htmlCallbacks : list (string * (HTMLElement -> WState -> WState));
  responseCallbacks : list (Response -> WState -> WState)
}.

Definition NewCollector (userAgent : string) : Collector :=
  mkCollector userAgent [] [] [] [].
Definition Limit (rule : LimitRule) (c : Collector) : Collector :=
  mkCollector (UserAgent c) (LimitRules c ++ [rule])
    (errorCallbacks c) (htmlCallbacks c) (responseCallbacks c).
Definition OnError (f : option Response -> error -> WState -> WState)
  (c : Collector) : Collector :=
  mkCollector (UserAgent c) (LimitRules c)
    (errorCallbacks c ++ [f]) (htmlCallbacks c) (responseCallbacks c).
Definition OnHTML (goquerySelector : string)
  (f : HTMLElement -> WState -> WState) (c : Collector) : Collector :=
  mkCollector (UserAgent c) (LimitRules c)
    (errorCallbacks c) (htmlCallbacks c ++ [(goquerySelector, f)])
    (responseCallbacks c).
Definition OnResponse (f : Response -> WState -> WState)
  (c : Collector) : Collector :=
  mkCollector (UserAgent c) (LimitRules c)
    (errorCallbacks c) (htmlCallbacks c) (responseCallbacks c ++ [f]).

Definition handleOnError (c : Collector) (r : option Response) (err : error)
  (s : WState) : WState :=
  foldl (fun s f => f r err s) s (errorCallbacks c).

Definition handleOnResponse (c : Collector) (r : Response) (s : WState)
  : WState :=
  foldl (fun s f => f r s) s (responseCallbacks c).

(** Each callback in registration order, each over all the nodes its
    selector matches; nothing when the response is not HTML. *)
Definition handleOnHTML (c : Collector) (u : string) (r : Response)
  (s : WState) : WState :=
  if negb (ContentTypeHTML r) then s
  else foldl (fun s cc =>
                foldl (fun s n => cc.2 (mkElement n u) s) s (Find r cc.1))
         s (htmlCallbacks c).

(** [Collector.Visit] of a synchronous collector with default settings:
    the request is checked, sent, and the callbacks run in colly's order
    (error callbacks when the request fails or the status is 203 or more;
    otherwise response callbacks, then HTML callbacks).  Decoding the
    body and parsing the HTML are taken to succeed. *)
Definition Visit (w : World) (c : Collector) (u : string) (s : WState)
  : option error * WState :=
  if String.eqb u "" then (Some "Missing URL", s)
  else
    match url.Parse u with
    | None => (Some "parse", s)
    | Some _ =>
        let s := on_wire (mkRequest u (UserAgent c) (LimitRules c)) s in
        match backend w u with
        | None => (Some "request failed", handleOnError c None "request failed" s)
        | Some r =>
            if 203 <=? StatusCode r
            then (Some "status", handleOnError c (Some r) "status" s)
            else
              let s := handleOnResponse c r s in
              let s := handleOnHTML c u r s in
              (None, s)
        end
    end.

(** ** The fetch worker *)

(** The four closures of [crawlURL], in the order registered.  Each reads
    and writes the variable [urlData] of the enclosing call. *)

Definition errorHandler (r : option Response) (err : error) (s : WState)
  : WState :=
  println [ErrorWhileCrawling (URL (urlData s)) err] s.

Definition appendLink (w : World) (e : HTMLElement) (s : WState) : WState :=
  let link := AbsoluteURL w (elem_Request e) (Attr e "href") in
  let d := urlData s in
  set_urlData (mkURLData (URL d) (Created d) (Links d ++ [link])) s.

Definition printLink (e : HTMLElement) (s : WState) : WState :=
  let link := Attr e "href" in
  println [FoundLink link] s.

Definition responseHandler (r : Response) (s : WState) : WState :=
  if StatusCode r =? 200
  then println [CrawledURL (URL (urlData s))] (send (urlData s) s)
  else println [Non200Status (URL (urlData s)) (StatusCode r)] s.

Definition crawlURL (w : World) (u : URLData) (s0 : WState) : WState :=
  let s := set_urlData u s0 in
  wg_Done (* deferred: runs on every return *)
    (let '(ua, s) := draw w s in
     let c := NewCollector ua in
     let '(allowed, lines) := isURLAllowedByRobotsTXT w (URL (urlData s)) in
     let s := println lines s in
     if negb allowed then s
     else
       let c := OnError errorHandler c in
       let c := OnHTML "a[href]" (appendLink w) c in
       let c := OnHTML "a[href]" printLink c in
       let c := OnResponse responseHandler c in
       let '(_, s) := Visit w c (URL (urlData s)) s in
       send (urlData s) s).

(** ** The sitemap aggregator *)

(** The loop [siteMap[u.URL] = u.Links]. *)
Definition buildSiteMap (urls : list URLData) : gmap string (list string) :=
  foldl (fun siteMap u => <[URL u := Links u]> siteMap) ∅ urls.

(** [createSiteMap]: the returned error, the files after the call, the
    lines logged.  The error of [json.Marshal] is assigned to [err] and
    [err] is assigned again by the write. *)
Definition createSiteMap (w : World) (urls : list URLData)
  (files : gmap string string)
  : option error * gmap string string * list LogLine :=
  let siteMap := buildSiteMap urls in
  let '(jsonData, err) := json_Marshal w siteMap in
  let err := WriteFile_error w "siteMap.json" jsonData in
  match err with
  | Some e => (Some e, files, [ErrorWritingSitemap e])
  | None => (None, <["siteMap.json" := jsonData]> files, [SitemapCreated])
  end.

(** ** The crawl scheduler *)

Definition rateLimitRule : LimitRule :=
  mkLimitRule "*" (5 * Second) (5 * Second).

(** The spawning loop over [rest], the tasks not yet visited: each turn
    starts a goroutine for the task and then leaves the loop when
    [len(urls) >= concurrentCrawlers].  The result lists the tasks that
    got a goroutine. *)
Fixpoint spawn (len_urls concurrentCrawlers : Z) (rest : list URLData)
  : list URLData :=
  match rest with
  | [] => []
  | urlData :: rest' =>
      urlData ::
        (if len_urls >=? concurrentCrawlers then []
         else spawn len_urls concurrentCrawlers rest')
  end.

Definition launched (urls : list URLData) (concurrentCrawlers : Z)
  : list URLData :=
  spawn (Z.of_nat (length urls)) concurrentCrawlers urls.

(** The body of the goroutine started for [u]: the collector it builds
    and limits, and the state [crawlURL] leaves.  [crawlURL] is not given
    that collector.  The goroutine starts with nothing sent and with the
    one [wg.Add(1)] that precedes it on the counter. *)
Definition goroutine (w : World) (u : URLData) : Collector * WState :=
  let s := mkWState u [] 1 [] [] 0 in
  let '(ua, s) := draw w s in
  let c := NewCollector ua in
  let c := Limit rateLimitRule c in
  (c, crawlURL w u s).

(** What the goroutine of [u] sends on the channel, in order. *)
Definition sends (w : World) (u : URLData) : list URLData :=
  ch (goroutine w u).2.

(** The channel delivers the values of each sender in the order sent and
    fixes no order between senders: [Interleaves ls r] when [r] merges
    the lists [ls]. *)
Inductive Interleaves {A : Type} : list (list A) -> list A -> Prop :=
| Interleaves_nil ls :
    Forall (fun l => l = []) ls -> Interleaves ls []
| Interleaves_cons ls i x xs r :
    ls !! i = Some (x :: xs) ->
    Interleaves (<[i := xs]> ls) r ->
    Interleaves ls (x :: r).

(** [threadedCrawl urls concurrentCrawlers]: [crawledURLs] is a sequence
    the drain loop can end with, and the second component is what
    [createSiteMap] does with it. *)
Definition threadedCrawl (w : World) (urls : list URLData)
  (concurrentCrawlers : Z) (files : gmap string string)
  (crawledURLs : list URLData)
  (result : option error * gmap string string * list LogLine) : Prop :=
  Interleaves (sends w <$> launched urls concurrentCrawlers) crawledURLs
  /\ result = createSiteMap w crawledURLs files.

(** ** Derived notions used in the statements *)

(** The verdict of the gate, without the log lines. *)
Definition allowed (w : World) (urlStr : string) : bool :=
  (isURLAllowedByRobotsTXT w urlStr).1.

(** The response a collector's [Visit] of [u] receives: none when the
    collector refuses the request or the request fails. *)
Definition fetched (w : World) (u : string) : option Response :=
  if String.eqb u "" then None
  else match url.Parse u with
       | None => None
       | Some _ => backend w u
       end.

(** The fetch ended with an HTTP 200 response. *)
Definition got_200 (w : World) (u : string) : bool :=
  match fetched w u with
  | Some r => StatusCode r =? 200
  | None => false
  end.

(** The links the link callback appends for the response [r] to the
    request [u]: one per node matching [a[href]], in document order. *)
Definition discovered (w : World) (u : string) (r : Response) : list string :=
  if ContentTypeHTML r
  then (fun n => AbsoluteURL w u (Attr (mkElement n u) "href")) <$> Find r "a[href]"
  else [].

Definition with_links (u : URLData) (ls : list string) : URLData :=
  mkURLData (URL u) (Created u) (Links u ++ ls).

(** What an allowed worker sends, by the outcome of its fetch. *)
Definition visit_sends (w : World) (u : URLData) : list URLData :=
  match fetched w (URL u) with
  | None => [u]
  | Some r =>
      if 203 <=? StatusCode r then [u]
      else if StatusCode r =? 200 then [u; with_links u (discovered w (URL u) r)]
      else [with_links u (discovered w (URL u) r)]
  end.

(** The collector refuses an empty or unparseable URL before sending. *)
Definition request_sent (u : string) : bool :=
  negb (String.eqb u "") && bool_decide (is_Some (url.Parse u)).

(** The policy as the specification words it, to compare with [spawn]:
    spawning stops once the number of tasks already seen is at least the
    cap, and that is checked only when the task list is at least as long
    as the cap. *)
Fixpoint documented_spawn (len_urls cap seen : Z) (rest : list URLData)
  : list URLData :=
  match rest with
  | [] => []
  | urlData :: rest' =>
      urlData ::
        (if (len_urls >=? cap) && (seen + 1 >=? cap) then []
         else documented_spawn len_urls cap (seen + 1) rest')
  end.

Definition documented_launched (urls : list URLData) (cap : Z) : list URLData :=
  documented_spawn (Z.of_nat (length urls)) cap 0 urls.

(** ** Concrete worlds and tasks *)

(** A robots engine that keeps a list of forbidden prefixes and tests
    them against the string it is given. *)
Definition prefix_TestAgent (data : list string) (path agent : string) : bool :=
  forallb (fun d => negb (String.prefix d path)) data.

Definition anchor (href : string) : HTMLNode := mkNode [("href", href)].

(** Three hosts.  [c.test] forbids every URL that starts with
    [http://c.test/private]; the robots.txt of [b.test] cannot be
    fetched; [a.test] forbids the prefix [/private].  The page
    [http://b.test/missing] answers 404, the page [http://a.test/]
    answers 200 with two anchors. *)
Definition three_hosts : World := {|
  RobotsData := list string;
  FromResponse r :=
    if http_StatusCode r =? 200 then Some [http_Body r] else None;
  TestAgent := prefix_TestAgent;
  RoundTrip u :=
    if String.eqb u "http://c.test/robots.txt"
    then Some (mkHttpResponse 200 "http://c.test/private")
    else if String.eqb u "http://a.test/robots.txt"
    then Some (mkHttpResponse 200 "/private")
    else None;
  backend u :=
    if String.eqb u "http://b.test/missing"
    then Some (mkResponse 404 true (fun _ => []))
    else if String.eqb u "http://a.test/"
    then Some (mkResponse 200 true
                 (fun sel => if String.eqb sel "a[href]"
                             then [anchor "x"; anchor "http://d.test/y"]
                             else []))
    else if String.eqb u "http://a.test/private"
    then Some (mkResponse 200 false (fun _ => []))
    else None;
  AbsoluteURL base href :=
    if String.prefix "http" href then href else base +:+ href;
  GetRandomUserAgent _ := "agent";
  json_Marshal m := (String.concat "," (map_to_list m).*1, None);
  WriteFile_error _ _ := None
|}.



(** A world in which every robots.txt is served and forbids everything. *)
Definition deny_all : World := {|
  RobotsData := unit;
  FromResponse _ := Some tt;
  TestAgent _ _ _ := false;
  RoundTrip _ := Some (mkHttpResponse 200 "User-agent: *");
  backend _ := None;
  AbsoluteURL _ href := href;
  GetRandomUserAgent _ := "agent";
  json_Marshal _ := ("{}", None);
  WriteFile_error _ _ := None
|}.

Definition seed (u : string) : URLData := mkURLData u 0 [].

Definition denied_task : URLData := seed "http://c.test/private".
Definition missing_task : URLData := seed "http://b.test/missing".
Definition ok_task : URLData := seed "http://a.test/".

Definition idle : WState := mkWState (seed "") [] 0 [] [] 0.

(** The task [ok_task] with the two links of its page. *)
Definition ok_crawled : URLData :=
  mkURLData "http://a.test/" 0 ["http://a.test/x"; "http://d.test/y"].


(** ** The seeds and the entry point of the crawl *)

Definition getURLsToCrawl : list URLData :=
  [mkURLData "https://www.kaggle.com/search?q=housing+prices" 0 [];
   mkURLData "http://books.toscrape.com/" 0 [];
   mkURLData "https://www.kaggle.com/search?q=stocks" 0 [];
   mkURLData "https://www.kaggle.com/search?q=stock+market" 0 [];
   mkURLData "https://www.kaggle.com/search?q=real+estate" 0 []].

(** [InitializeCrawling]: the seeds are crawled with a cap of ten. *)
Definition InitializeCrawling (w : World) (files : gmap string string)
  (crawledURLs : list URLData)
  (result : option error * gmap string string * list LogLine) : Prop :=
  threadedCrawl w getURLsToCrawl 10 files crawledURLs result.

(** ** The records of the table scrapers *)

Module YearData.

Record t := mk {
  Year : string;
  Jan : string;
  Feb : string;
  Mar : string;
  Apr : string;
  May : string;
  Jun : string;
  July : string;
  Aug : string;
  Sept : string;
  Oct : string;
  Nov : string;
  Dec : string;
  Avg : string
}.

(** The zero value of the struct. *)
Definition zero : t := mk "" "" "" "" "" "" "" "" "" "" "" "" "" "".

(** The fields in the order of declaration. *)
Definition fields (x : t) : list string :=
  [Year x; Jan x; Feb x; Mar x; Apr x; May x; Jun x; July x; Aug x; Sept x; Oct x; Nov x; Dec x; Avg x].

Definition set_Year (v : string) (x : t) : t :=
  mk v (Jan x) (Feb x) (Mar x) (Apr x) (May x) (Jun x) (July x) (Aug x) (Sept x) (Oct x) (Nov x) (Dec x) (Avg x).
Definition set_Jan (v : string) (x : t) : t :=
  mk (Year x) v (Feb x) (Mar x) (Apr x) (May x) (Jun x) (July x) (Aug x) (Sept x) (Oct x) (Nov x) (Dec x) (Avg x).
Definition set_Feb (v : string) (x : t) : t :=
  mk (Year x) (Jan x) v (Mar x) (Apr x) (May x) (Jun x) (July x) (Aug x) (Sept x) (Oct x) (Nov x) (Dec x) (Avg x).
Definition set_Mar (v : string) (x : t) : t :=
  mk (Year x) (Jan x) (Feb x) v (Apr x) (May x) (Jun x) (July x) (Aug x) (Sept x) (Oct x) (Nov x) (Dec x) (Avg x).
Definition set_Apr (v : string) (x : t) : t :=
  mk (Year x) (Jan x) (Feb x) (Mar x) v (May x) (Jun x) (July x) (Aug x) (Sept x) (Oct x) (Nov x) (Dec x) (Avg x).
Definition set_May (v : string) (x : t) : t :=
  mk (Year x) (Jan x) (Feb x) (Mar x) (Apr x) v (Jun x) (July x) (Aug x) (Sept x) (Oct x) (Nov x) (Dec x) (Avg x).
Definition set_Jun (v : string) (x : t) : t :=
  mk (Year x) (Jan x) (Feb x) (Mar x) (Apr x) (May x) v (July x) (Aug x) (Sept x) (Oct x) (Nov x) (Dec x) (Avg x).
Definition set_July (v : string) (x : t) : t :=
  mk (Year x) (Jan x) (Feb x) (Mar x) (Apr x) (May x) (Jun x) v (Aug x) (Sept x) (Oct x) (Nov x) (Dec x) (Avg x).
Definition set_Aug (v : string) (x : t) : t :=
  mk (Year x) (Jan x) (Feb x) (Mar x) (Apr x) (May x) (Jun x) (July x) v (Sept x) (Oct x) (Nov x) (Dec x) (Avg x).
Definition set_Sept (v : string) (x : t) : t :=
  mk (Year x) (Jan x) (Feb x) (Mar x) (Apr x) (May x) (Jun x) (July x) (Aug x) v (Oct x) (Nov x) (Dec x) (Avg x).
Definition set_Oct (v : string) (x : t) : t :=
  mk (Year x) (Jan x) (Feb x) (Mar x) (Apr x) (May x) (Jun x) (July x) (Aug x) (Sept x) v (Nov x) (Dec x) (Avg x).
Definition set_Nov (v : string) (x : t) : t :=
  mk (Year x) (Jan x) (Feb x) (Mar x) (Apr x) (May x) (Jun x) (July x) (Aug x) (Sept x) (Oct x) v (Dec x) (Avg x).
Definition set_Dec (v : string) (x : t) : t :=
  mk (Year x) (Jan x) (Feb x) (Mar x) (Apr x) (May x) (Jun x) (July x) (Aug x) (Sept x) (Oct x) (Nov x) v (Avg x).
Definition set_Avg (v : string) (x : t) : t :=
  mk (Year x) (Jan x) (Feb x) (Mar x) (Apr x) (May x) (Jun x) (July x) (Aug x) (Sept x) (Oct x) (Nov x) (Dec x) v.

End YearData.

Module GasolineData.

Record t := mk {
  Year : string;
  AverageGasolinePrices : string;
  AverageAnnualCPIForGas : string;
  GasPricesAdjustedForInfl : string
}.

(** The zero value of the struct. *)
Definition zero : t := mk "" "" "" "".

(** The fields in the order of declaration. *)
Definition fields (x : t) : list string :=
  [Year x; AverageGasolinePrices x; AverageAnnualCPIForGas x; GasPricesAdjustedForInfl x].

Definition set_Year (v : string) (x : t) : t :=
  mk v (AverageGasolinePrices x) (AverageAnnualCPIForGas x) (GasPricesAdjustedForInfl x).
Definition set_AverageGasolinePrices (v : string) (x : t) : t :=
  mk (Year x) v (AverageAnnualCPIForGas x) (GasPricesAdjustedForInfl x).
Definition set_AverageAnnualCPIForGas (v : string) (x : t) : t :=
  mk (Year x) (AverageGasolinePrices x) v (GasPricesAdjustedForInfl x).
Definition set_GasPricesAdjustedForInfl (v : string) (x : t) : t :=
  mk (Year x) (AverageGasolinePrices x) (AverageAnnualCPIForGas x) v.

End GasolineData.

Module PropertyData.

Record t := mk {
  Status : string;
  Bedrooms : string;
  Bathrooms : string;
  AcreLot : string;
  City : string;
  State : string;
  ZipCode : string;
  HouseSize : string;
  SoldDate : string;
  Price : string
}.

(** The zero value of the struct. *)
Definition zero : t := mk "" "" "" "" "" "" "" "" "" "".

(** The fields in the order of declaration. *)
Definition fields (x : t) : list string :=
  [Status x; Bedrooms x; Bathrooms x; AcreLot x; City x; State x; ZipCode x; HouseSize x; SoldDate x; Price x].

Definition set_Status (v : string) (x : t) : t :=
  mk v (Bedrooms x) (Bathrooms x) (AcreLot x) (City x) (State x) (ZipCode x) (HouseSize x) (SoldDate x) (Price x).
Definition set_Bedrooms (v : string) (x : t) : t :=
  mk (Status x) v (Bathrooms x) (AcreLot x) (City x) (State x) (ZipCode x) (HouseSize x) (SoldDate x) (Price x).
Definition set_Bathrooms (v : string) (x : t) : t :=
  mk (Status x) (Bedrooms x) v (AcreLot x) (City x) (State x) (ZipCode x) (HouseSize x) (SoldDate x) (Price x).
Definition set_AcreLot (v : string) (x : t) : t :=
  mk (Status x) (Bedrooms x) (Bathrooms x) v (City x) (State x) (ZipCode x) (HouseSize x) (SoldDate x) (Price x).
Definition set_City (v : string) (x : t) : t :=
  mk (Status x) (Bedrooms x) (Bathrooms x) (AcreLot x) v (State x) (ZipCode x) (HouseSize x) (SoldDate x) (Price x).
Definition set_State (v : string) (x : t) : t :=
  mk (Status x) (Bedrooms x) (Bathrooms x) (AcreLot x) (City x) v (ZipCode x) (HouseSize x) (SoldDate x) (Price x).
Definition set_ZipCode (v : string) (x : t) : t :=
  mk (Status x) (Bedrooms x) (Bathrooms x) (AcreLot x) (City x) (State x) v (HouseSize x) (SoldDate x) (Price x).
Definition set_HouseSize (v : string) (x : t) : t :=
  mk (Status x) (Bedrooms x) (Bathrooms x) (AcreLot x) (City x) (State x) (ZipCode x) v (SoldDate x) (Price x).
Definition set_SoldDate (v : string) (x : t) : t :=
  mk (Status x) (Bedrooms x) (Bathrooms x) (AcreLot x) (City x) (State x) (ZipCode x) (HouseSize x) v (Price x).
Definition set_Price (v : string) (x : t) : t :=
  mk (Status x) (Bedrooms x) (Bathrooms x) (AcreLot x) (City x) (State x) (ZipCode x) (HouseSize x) (SoldDate x) v.

End PropertyData.

(** ** goquery: documents and selections *)

Module goquery.

(** A selection of one node: its text, and for a selector the nodes of
    its subtree that the selector matches, in document order. *)
#[warnings="-register-all"]
Inductive Selection := mkSelection {
  Text : string;
  Find : string -> list Selection
}.

(** [Each]: the callback is given the position of the node in the
    selection, from zero, and the node. *)
Fixpoint Each_from {A S : Type} (i : nat) (f : nat -> A -> S -> S)
  (nodes : list A) (s : S) : S :=
  match nodes with
  | [] => s
  | n :: nodes' => Each_from (Datatypes.S i) f nodes' (f i n s)
  end.

Definition Each {A S : Type} (f : nat -> A -> S -> S) (nodes : list A) (s : S)
  : S := Each_from 0 f nodes s.

End goquery.

(** What the scrapers need beside the [World]: the HTML parser and the
    JSON encoder of each record type (the bytes, and the error). *)
Record Scraping := mkScraping {
  NewDocumentFromReader : string -> option goquery.Selection;
  MarshalIndent_YearData : list YearData.t -> string * option error;
  MarshalIndent_GasolineData : list GasolineData.t -> string * option error;
  MarshalIndent_PropertyData : list PropertyData.t -> string * option error
}.

(** [log.Fatal] ends the process; what it was called for. *)
Inductive Fatal :=
| FatalGet
| FatalStatusCode (code : Z)
| FatalDocument
| FatalMarshal (err : error)
| FatalWriteFile (err : error).

(** A function either ends the process or returns. *)
Inductive Exit (A : Type) :=
| Exited (f : Fatal)
| Returned (a : A).
Arguments Exited {A} f.
Arguments Returned {A} a.

(** ** airdatatest *)

Definition airdatatest_cell (cellIndex : nat) (cellHtml : goquery.Selection)
  (x : YearData.t) : YearData.t :=
  match cellIndex with
  | 0%nat => YearData.set_Year (goquery.Text cellHtml) x
  | 1%nat => YearData.set_Jan (goquery.Text cellHtml) x
  | 2%nat => YearData.set_Feb (goquery.Text cellHtml) x
  | 3%nat => YearData.set_Mar (goquery.Text cellHtml) x
  | 4%nat => YearData.set_Apr (goquery.Text cellHtml) x
  | 5%nat => YearData.set_May (goquery.Text cellHtml) x
  | 6%nat => YearData.set_Jun (goquery.Text cellHtml) x
  | 7%nat => YearData.set_July (goquery.Text cellHtml) x
  | 8%nat => YearData.set_Aug (goquery.Text cellHtml) x
  | 9%nat => YearData.set_Sept (goquery.Text cellHtml) x
  | 10%nat => YearData.set_Oct (goquery.Text cellHtml) x
  | 11%nat => YearData.set_Nov (goquery.Text cellHtml) x
  | 12%nat => YearData.set_Dec (goquery.Text cellHtml) x
  | 13%nat => YearData.set_Avg (goquery.Text cellHtml) x
  | _ => x
  end.

Definition airdatatest_row (rowIndex : nat) (rowHtml : goquery.Selection)
  (data : list YearData.t) : list YearData.t :=
  if (rowIndex =? 0)%nat then data
  else
    let yearData :=
      goquery.Each airdatatest_cell (goquery.Find rowHtml "td") YearData.zero in
    data ++ [yearData].

Definition airdatatest (w : World) (e : Scraping) (files : gmap string string)
  : Exit (gmap string string) :=
  let urlll := "https://www.usinflationcalculator.com/inflation/airfare-inflation/" in
  match http_Get w urlll with
  | None => Exited FatalGet
  | Some res =>
      if negb (http_StatusCode res =? 200)
      then Exited (FatalStatusCode (http_StatusCode res))
      else
        match NewDocumentFromReader e (http_Body res) with
        | None => Exited FatalDocument
        | Some doc =>
            let data :=
              goquery.Each airdatatest_row (goquery.Find doc "table tbody tr") [] in
            let '(jsonData, err) := MarshalIndent_YearData e data in
            match err with
            | Some err => Exited (FatalMarshal err)
            | None =>
                match WriteFile_error w "airfare_data.json" jsonData with
                | Some err => Exited (FatalWriteFile err)
                | None => Returned (<["airfare_data.json" := jsonData]> files)
                end
            end
        end
  end.

(** ** scrapeInflationData *)

Definition scrapeInflationData_cell (cellIndex : nat)
  (cellHtml : goquery.Selection) (x : YearData.t) : YearData.t :=
  let text := goquery.Text cellHtml in
  match cellIndex with
  | 0%nat => YearData.set_Year (goquery.Text cellHtml) x
  | 1%nat => YearData.set_Jan (goquery.Text cellHtml) x
  | 2%nat => YearData.set_Feb (goquery.Text cellHtml) x
  | 3%nat => YearData.set_Mar (goquery.Text cellHtml) x
  | 4%nat => YearData.set_Apr (goquery.Text cellHtml) x
  | 5%nat => YearData.set_May (goquery.Text cellHtml) x
  | 6%nat => YearData.set_Jun (goquery.Text cellHtml) x
  | 7%nat => YearData.set_July (goquery.Text cellHtml) x
  | 8%nat => YearData.set_Aug (goquery.Text cellHtml) x
  | 9%nat => YearData.set_Sept (goquery.Text cellHtml) x
  | 10%nat => YearData.set_Oct (goquery.Text cellHtml) x
  | 11%nat => YearData.set_Nov (goquery.Text cellHtml) x
  | 12%nat => YearData.set_Dec (goquery.Text cellHtml) x
  | 13%nat => YearData.set_Avg text (YearData.set_Avg (goquery.Text cellHtml) x)
  | _ => x
  end.

Definition scrapeInflationData_row (rowIndex : nat)
  (rowHtml : goquery.Selection) (data : list YearData.t) : list YearData.t :=
  if (rowIndex =? 0)%nat then data
  else
    let yearData :=
      goquery.Each scrapeInflationData_cell (goquery.Find rowHtml "td")
        YearData.zero in
    data ++ [yearData].

Definition scrapeInflationData (w : World) (e : Scraping)
  (files : gmap string string) : Exit (gmap string string) :=
  let urlll := "https://www.usinflationcalculator.com/inflation/current-inflation-rates/" in
  match http_Get w urlll with
  | None => Exited FatalGet
  | Some res =>
      if negb (http_StatusCode res =? 200)
      then Exited (FatalStatusCode (http_StatusCode res))
      else
        match NewDocumentFromReader e (http_Body res) with
        | None => Exited FatalDocument
        | Some doc =>
            let data :=
              goquery.Each scrapeInflationData_row
                (goquery.Find doc "table tbody tr") [] in
            let '(jsonData, err) := MarshalIndent_YearData e data in
            match err with
            | Some err => Exited (FatalMarshal err)
            | None =>
                match WriteFile_error w "inflation_data.json" jsonData with
                | Some err => Exited (FatalWriteFile err)
                | None => Returned (<["inflation_data.json" := jsonData]> files)
                end
            end
        end
  end.

(** ** scrapeGasInflationData *)

Definition scrapeGasInflationData_cell (cellIndex : nat)
  (cellHtml : goquery.Selection) (x : GasolineData.t) : GasolineData.t :=
  let text := goquery.Text cellHtml in
  match cellIndex with
  | 0%nat => GasolineData.set_Year (text) x
  | 1%nat => GasolineData.set_AverageGasolinePrices (text) x
  | 2%nat => GasolineData.set_AverageAnnualCPIForGas (text) x
  | 3%nat => GasolineData.set_GasPricesAdjustedForInfl (text) x
  | _ => x
  end.

Definition scrapeGasInflationData_row (rowIndex : nat)
  (rowHtml : goquery.Selection) (data : list GasolineData.t)
  : list GasolineData.t :=
  if (rowIndex =? 0)%nat then data
  else
    let gasData :=
      goquery.Each scrapeGasInflationData_cell (goquery.Find rowHtml "td")
        GasolineData.zero in
    data ++ [gasData].

Definition scrapeGasInflationData (w : World) (e : Scraping)
  (files : gmap string string) : Exit (gmap string string) :=
  let urlll := "https://www.usinflationcalculator.com/gasoline-prices-adjusted-for-inflation/" in
  match http_Get w urlll with
  | None => Exited FatalGet
  | Some res =>
      if negb (http_StatusCode res =? 200)
      then Exited (FatalStatusCode (http_StatusCode res))
      else
        match NewDocumentFromReader e (http_Body res) with
        | None => Exited FatalDocument
        | Some doc =>
            let data :=
              goquery.Each scrapeGasInflationData_row
                (goquery.Find doc "table tbody tr") [] in
            let '(jsonData, err) := MarshalIndent_GasolineData e data in
            match err with
            | Some err => Exited (FatalMarshal err)
            | None =>
                match WriteFile_error w "gasoline_data.json" jsonData with
                | Some err => Exited (FatalWriteFile err)
                | None => Returned (<["gasoline_data.json" := jsonData]> files)
                end
            end
        end
  end.

(** ** scrapeHousingData *)

Definition scrapeHousingData_item (index : nat) (item : goquery.Selection)
  (x : PropertyData.t) : PropertyData.t :=
  match index with
  | 0%nat => PropertyData.set_Status (goquery.Text item) x
  | 1%nat => PropertyData.set_Bedrooms (goquery.Text item) x
  | 2%nat => PropertyData.set_Bathrooms (goquery.Text item) x
  | 3%nat => PropertyData.set_AcreLot (goquery.Text item) x
  | 4%nat => PropertyData.set_City (goquery.Text item) x
  | 5%nat => PropertyData.set_State (goquery.Text item) x
  | 6%nat => PropertyData.set_ZipCode (goquery.Text item) x
  | 7%nat => PropertyData.set_HouseSize (goquery.Text item) x
  | 8%nat => PropertyData.set_SoldDate (goquery.Text item) x
  | 9%nat => PropertyData.set_Price (goquery.Text item) x
  | _ => x
  end.

Definition scrapeHousingData_card (i : nat) (s : goquery.Selection)
  (properties : list PropertyData.t) : list PropertyData.t :=
  let data :=
    goquery.Each scrapeHousingData_item (goquery.Find s "div")
      PropertyData.zero in
  properties ++ [data].

Definition scrapeHousingData (w : World) (e : Scraping)
  (files : gmap string string) : Exit (gmap string string) :=
  let urlll := "https://www.kaggle.com/datasets/ahmedshahriarsakib/usa-real-estate-dataset" in
  match http_Get w urlll with
  | None => Exited FatalGet
  | Some res =>
      if negb (http_StatusCode res =? 200)
      then Exited (FatalStatusCode (http_StatusCode res))
      else
        match NewDocumentFromReader e (http_Body res) with
        | None => Exited FatalDocument
        | Some doc =>
            let properties :=
              goquery.Each scrapeHousingData_card
                (goquery.Find doc ".sc-fLdTid.sc-eZkIzG.iXbLwD.cefCfQ") [] in
            let '(jsonData, err) := MarshalIndent_PropertyData e properties in
            match err with
            | Some err => Exited (FatalMarshal err)
            | None =>
                match WriteFile_error w "property_data.json" jsonData with
                | Some err => Exited (FatalWriteFile err)
                | None => Returned (<["property_data.json" := jsonData]> files)
                end
            end
        end
  end.

(** ** main *)

Definition and_then {A B : Type} (x : Exit A) (k : A -> Exit B) : Exit B :=
  match x with
  | Exited f => Exited f
  | Returned a => k a
  end.

(** The function came back; the process was not ended. *)
Definition returns {A : Type} (x : Exit A) : bool :=
  match x with
  | Returned _ => true
  | Exited _ => false
  end.

(** [main]: the crawl, then the four scrapers in turn; the crawl returns
    whatever happened in it, a scraper may end the process. *)
Definition main (w : World) (e : Scraping) (files : gmap string string)
  (crawledURLs : list URLData) (outcome : Exit (gmap string string)) : Prop :=
  exists result,
    InitializeCrawling w files crawledURLs result
    /\ outcome =
       and_then (airdatatest w e result.1.2) (fun files =>
       and_then (scrapeInflationData w e files) (fun files =>
       and_then (scrapeGasInflationData w e files) (fun files =>
       scrapeHousingData w e files))).

(** ** Package dal: predictions *)

Module dal.

Record Prediction := mkPrediction {
  PredictionID : string;
  EngineID : string;
  InputData : string;
  PredictionInfo : string;
  PredictionTime : string
}.

(** What a function of the package does to the outside, in order: a
    query, a statement, a call of [InsertLog] (declared elsewhere in the
    package), a line of the standard logger. *)
Inductive Event :=
| QueryRow (query : string) (args : list string)
| Exec (query : string) (args : list string)
| InsertLog (code message function : string)
| Println (line : string).

(** The database behind [DB]: what a query scans into a bool, or its
    error, and the error of a statement, if any.  Both may depend on
    everything that happened before. *)
Record Database := mkDatabase {
  Scan_bool : list Event -> string -> list string -> error + bool;
  Exec_error : list Event -> string -> list string -> option error
}.

Definition EngineIDExists (db : Database) (engineID : string) (h : list Event)
  : (bool * option error) * list Event :=
  let query := "SELECT EXISTS(SELECT 1 FROM scraper_engine WHERE engine_id=?)" in
  let err := Scan_bool db h query [engineID] in
  let h := h ++ [QueryRow query [engineID]] in
  match err with
  | inl err =>
      ((false, Some err),
       h ++ [InsertLog "400" ("Error checking engine ID existence: " +:+ err)
               "EngineIDExists()"])
  | inr exists_ =>
      ((exists_, None),
       h ++ [InsertLog "200" "Successfully checked if engine ID exists."
               "EngineIDExists()";
             Println "Successfully checked if engine ID exists."])
  end.

Definition InsertPrediction (db : Database) (engineID predictionInfo : string)
  (h : list Event) : option error * list Event :=
  let '((exists_, err), h) := EngineIDExists db engineID h in
  match err with
  | Some err =>
      (Some ("Error checking engine ID: " +:+ err),
       h ++ [InsertLog "400" ("Error checking engine ID: " +:+ err)
               "InsertPrediction()"])
  | None =>
      let h := h ++ [InsertLog "200" "Successfully checked if engine ID exists."
                       "InsertPrediction()";
                     Println "Successfully checked if engine ID exists."] in
      if negb exists_ then
        (Some ("engine_id " +:+ engineID +:+ " does not exist"),
         h ++ [InsertLog "400" "engine_id does not exist" "InsertPrediction()"])
      else
        let h := h ++ [InsertLog "200" "Engine ID exists." "InsertPrediction()";
                       Println "Engine ID exists."] in
        let query := "INSERT INTO predictions (engine_id, prediction_info) VALUES (?, ?)" in
        let err := Exec_error db h query [engineID; predictionInfo] in
        let h := h ++ [Exec query [engineID; predictionInfo]] in
        match err with
        | Some err =>
            (Some ("Error storing prediction: " +:+ err),
             h ++ [InsertLog "400" ("Error storing prediction: " +:+ err)
                     "InsertPrediction()"])
        | None =>
            (None,
             h ++ [InsertLog "200" "Successfully inserted prediction."
                     "InsertPrediction()";
                   Println "Successfully inserted prediction."])
        end
  end.

Definition InsertSampleEngine (db : Database)
  (engineID engineName engineDescription : string) (h : list Event)
  : option error * list Event :=
  let query := "INSERT INTO scraper_engine (engine_id, engine_name, engine_description) VALUES (?, ?, ?)" in
  let err := Exec_error db h query [engineID; engineName; engineDescription] in
  let h := h ++ [Exec query [engineID; engineName; engineDescription]] in
  match err with
  | Some err =>
      (Some ("Error inserting sample engine: " +:+ err),
       h ++ [InsertLog "400" ("Error inserting sample engine: " +:+ err)
               "InsertSampleEngine()"])
  | None =>
      (None,
       h ++ [InsertLog "200" "Successfully inserted sample engine."
               "InsertSampleEngine()";
             Println "Successfully inserted sample engine."])
  end.

(** The statements among the events. *)
Definition is_statement (ev : Event) : bool :=
  match ev with
  | QueryRow _ _ | Exec _ _ => true
  | _ => false
  end.

(** The calls of [InsertLog] with code 400 among the events. *)
Definition is_error_log (ev : Event) : bool :=
  match ev with
  | InsertLog code _ _ => String.eqb code "400"
  | _ => false
  end.

(** A database with one engine, [e1]; every statement succeeds. *)
Definition one_engine : Database := {|
  Scan_bool _ _ args := inr (bool_decide (args = ["e1"]));
  Exec_error _ _ _ := None
|}.

(** A database that cannot be reached. *)
Definition unreachable : Database := {|
  Scan_bool _ _ _ := inl "connection refused";
  Exec_error _ _ _ := Some "connection refused"
|}.

End dal.

(** ** More concrete worlds *)

(** The pages of the four scrapers are served by [scraper_pages]; every
    other request fails. *)
Definition cell (text : string) : goquery.Selection :=
  goquery.mkSelection text (fun _ => []).

Definition table_row (texts : list string) : goquery.Selection :=
  goquery.mkSelection (String.concat "" texts)
    (fun sel => if String.eqb sel "td" then cell <$> texts else []).

Definition sample_document : goquery.Selection :=
  goquery.mkSelection ""
    (fun sel => if String.eqb sel "table tbody tr"
                then [table_row ["Year"; "Jan"];
                      table_row ["2023"; "1.5"; "2.5"];
                      table_row []]
                else []).

Definition scraper_pages : World := {|
  RobotsData := unit;
  FromResponse _ := Some tt;
  TestAgent _ _ _ := true;
  RoundTrip u :=
    if String.prefix "https://www.usinflationcalculator.com/" u
       || String.prefix "https://www.kaggle.com/datasets/" u
    then Some (mkHttpResponse 200 "<html>") else None;
  backend _ := None;
  AbsoluteURL _ href := href;
  GetRandomUserAgent _ := "agent";
  json_Marshal _ := ("{}", None);
  WriteFile_error _ _ := None
|}.

Definition sample_scraping : Scraping := {|
  NewDocumentFromReader _ := Some sample_document;
  MarshalIndent_YearData d := (String.concat ";" (YearData.Year <$> d), None);
  MarshalIndent_GasolineData d := (String.concat ";" (GasolineData.Year <$> d), None);
  MarshalIndent_PropertyData d := (String.concat ";" (PropertyData.Status <$> d), None)
|}.

(** Inputs with the verdict of [url.Parse] on them ([true]: an error),
    as the parser's own error tests list them. *)
Definition parse_error_table : list (string * bool) :=
  [("http://[::1]", false); ("http://[::1]:80", false);
   ("http://[::1]:namedport", true); ("http://x:namedport", true);
   ("http://[::1]/", false); ("http://[::1]a", true);
   ("http://[::1]%23", true); ("http://[::1%25en0]", false);
   ("http://[::1]:", false); ("http://x:", false);
   ("http://[::1]:%38%30", true); ("http://[::1%25%41]", false);
   ("http://[%10::1]", true); ("http://[::1]/%48", false);
   ("http://%41:8080/", true); ("mysql://x@y(z:123)/foo", true);
   ("mysql://x@y(1.2.3.4:123)/foo", true);
   (" http://foo.com", true); ("ht tp://foo.com", true);
   ("ahttp://foo.com", false); ("1http://foo.com", true);
   ("http://a b.com/", true); ("cache_object://foo", true);
   ("cache_object:foo", true); ("cache_object:foo/bar", true);
   ("cache_object/:foo/bar", false)].

(** ** The parser on known inputs *)

Example Parse_agrees_with_error_table :
  Forall (fun t => bool_decide (url.Parse t.1 = None) = t.2) parse_error_table.
Proof. repeat constructor. Qed.

Example Parse_space_in_path :
  url.Parse "http://www.google.com/a b?q=c+d"
  = Some (url.mkURL "http" "" "www.google.com" "/a b" "q=c+d" "").
Proof. reflexivity. Qed.

Example Parse_seed :
  url.Parse "https://www.kaggle.com/search?q=housing+prices"
  = Some (url.mkURL "https" "" "www.kaggle.com" "/search" "q=housing+prices" "").
Proof. reflexivity. Qed.

(** ** Lemmas on the worker *)

Lemma with_links_nil u : with_links u [] = u.
Proof. destruct u; unfold with_links; simpl. by rewrite app_nil_r. Qed.

Lemma with_links_app u l1 l2 :
  with_links (with_links u l1) l2 = with_links u (l1 ++ l2).
Proof. unfold with_links; simpl. by rewrite app_assoc. Qed.

Lemma allowed_parses w urlStr :
  allowed w urlStr = true -> is_Some (url.Parse urlStr).
Proof.
  unfold allowed, isURLAllowedByRobotsTXT.
  destruct (url.Parse urlStr); [eauto | discriminate].
Qed.

(** The link callback over the nodes of a page: the links are appended
    to the closed-over task, nothing else changes. *)
Lemma appendLink_nodes w u nodes s :
  foldl (fun s n => appendLink w (mkElement n u) s) s nodes
  = set_urlData
      (with_links (urlData s)
         ((fun n => AbsoluteURL w u (Attr (mkElement n u) "href")) <$> nodes)) s.
Proof.
  revert s. induction nodes as [|n nodes IH]; intros s; simpl.
  - rewrite with_links_nil. by destruct s.
  - rewrite IH. destruct s as [d c g o wi dr].
    unfold appendLink, set_urlData, with_links; simpl.
    by rewrite <- app_assoc.
Qed.

(** The printing callback over the nodes of a page changes the log only. *)
Lemma printLink_nodes u nodes s :
  foldl (fun s n => printLink (mkElement n u) s) s nodes
  = println ((fun n => FoundLink (Attr (mkElement n u) "href")) <$> nodes) s.
Proof.
  revert s. induction nodes as [|n nodes IH]; intros s; simpl.
  - destruct s; unfold println; simpl. by rewrite app_nil_r.
  - rewrite IH. destruct s; unfold printLink, println; simpl.
    by rewrite <- app_assoc.
Qed.

(** The HTML callbacks of [crawlURL] over a response. *)
Lemma crawlURL_handleOnHTML w c0 u r s :
  handleOnHTML (OnResponse responseHandler
                  (OnHTML "a[href]" printLink
                     (OnHTML "a[href]" (appendLink w)
                        (OnError errorHandler (NewCollector c0))))) u r s
  = if ContentTypeHTML r
    then println ((fun n => FoundLink (Attr (mkElement n u) "href"))
                    <$> Find r "a[href]")
           (set_urlData (with_links (urlData s) (discovered w u r)) s)
    else s.
Proof.
  unfold handleOnHTML, discovered.
  destruct (ContentTypeHTML r); [|done]. simpl.
  by rewrite appendLink_nodes, printLink_nodes.
Qed.

(** The state [Visit] leaves for the collector of [crawlURL]: what was
    sent and the closed-over task. *)
Lemma crawlURL_Visit w c0 s :
  let c := OnResponse responseHandler
             (OnHTML "a[href]" printLink
                (OnHTML "a[href]" (appendLink w)
                   (OnError errorHandler (NewCollector c0)))) in
  let u := urlData s in
  let s' := (Visit w c (URL u) s).2 in
  ch s' ++ [urlData s'] = ch s ++ visit_sends w u
  /\ wg s' = wg s.
Proof.
  intros c u s'. subst s'. unfold Visit, visit_sends, fetched.
  destruct (String.eqb (URL u) ""); [done|].
  destruct (url.Parse (URL u)); [|done].
  destruct (backend w (URL u)) as [r|]; [|done].
  destruct (203 <=? StatusCode r); [done|].
  cbn [snd]. subst c. rewrite crawlURL_handleOnHTML.
  unfold handleOnResponse, responseHandler. simpl.
  destruct (StatusCode r =? 200), (ContentTypeHTML r) eqn:Hhtml;
    unfold discovered; rewrite ?Hhtml; simpl;
    rewrite ?with_links_nil, <- ?app_assoc; done.
Qed.

(** What [crawlURL] adds to the channel. *)
Lemma crawlURL_ch w u s :
  ch (crawlURL w u s)
  = ch s ++ (if allowed w (URL u) then visit_sends w u else []).
Proof.
  unfold crawlURL, allowed. simpl.
  destruct (isURLAllowedByRobotsTXT w (URL u)) as [al lines].
  simpl. destruct al; simpl; [|by rewrite app_nil_r].
  match goal with |- context [Visit w ?c ?x ?s0] =>
    pose proof (crawlURL_Visit w (GetRandomUserAgent w (draws s)) s0) as [H _];
    simpl in H; destruct (Visit w c x s0) as [e s1] end.
  simpl in *. done.
Qed.

(** [wg.Done] runs once, whatever the path. *)
Lemma crawlURL_wg w u s : wg (crawlURL w u s) = wg s - 1.
Proof.
  unfold crawlURL. simpl.
  destruct (isURLAllowedByRobotsTXT w (URL u)) as [al lines].
  simpl. destruct al; simpl; [|done].
  match goal with |- context [Visit w ?c ?x ?s0] =>
    pose proof (crawlURL_Visit w (GetRandomUserAgent w (draws s)) s0) as [_ H];
    simpl in H; destruct (Visit w c x s0) as [e s1] end.
  simpl in *. by rewrite H.
Qed.

(** Every goroutine gives back the count it was started with. *)
Lemma goroutine_done w u : wg (goroutine w u).2 = 0.
Proof. unfold goroutine, draw. cbn -[crawlURL]. by rewrite crawlURL_wg. Qed.

(** The requests [crawlURL] puts on the wire: at most one, from the
    collector [crawlURL] itself creates, which holds no limit rule. *)
Lemma crawlURL_wire w u s :
  wire (crawlURL w u s)
  = wire s ++
    (if allowed w (URL u) && request_sent (URL u)
     then [mkRequest (URL u) (GetRandomUserAgent w (draws s)) []] else []).
Proof.
  unfold crawlURL, allowed, request_sent. simpl.
  destruct (isURLAllowedByRobotsTXT w (URL u)) as [al lines].
  simpl. destruct al; simpl; [|by rewrite app_nil_r].
  unfold Visit. simpl.
  destruct (String.eqb (URL u) ""); simpl; [by rewrite app_nil_r|].
  destruct (url.Parse (URL u)); simpl; [|by rewrite app_nil_r].
  rewrite ?bool_decide_true by eauto.
  destruct (backend w (URL u)) as [r|]; [|done].
  destruct (203 <=? StatusCode r); [done|].
  cbn [snd]. rewrite crawlURL_handleOnHTML.
  unfold handleOnResponse, responseHandler. simpl.
  by destruct (StatusCode r =? 200), (ContentTypeHTML r).
Qed.

(** Every value a worker sends carries the URL of its task. *)
Lemma visit_sends_URL w u : Forall (fun x => URL x = URL u) (visit_sends w u).
Proof.
  unfold visit_sends.
  destruct (fetched w (URL u)) as [r|]; [|by repeat constructor].
  destruct (203 <=? StatusCode r); [by repeat constructor|].
  destruct (StatusCode r =? 200); by repeat constructor.
Qed.

Lemma visit_sends_length w u :
  length (visit_sends w u) = if got_200 w (URL u) then 2%nat else 1%nat.
Proof.
  unfold visit_sends, got_200.
  destruct (fetched w (URL u)) as [r|]; [|done].
  destruct (203 <=? StatusCode r) eqn:H203;
    destruct (StatusCode r =? 200) eqn:H200; try done.
  apply Z.leb_le in H203. apply Z.eqb_eq in H200. lia.
Qed.

Lemma sends_eq w u :
  sends w u = if allowed w (URL u) then visit_sends w u else [].
Proof. unfold sends, goroutine, draw. cbn -[crawlURL]. by rewrite crawlURL_ch. Qed.

(** ** Lemmas on the channel *)

Section interleaves.
Context {A : Type}.
Implicit Types (ls : list (list A)) (r l : list A).

Lemma Interleaves_Permutation ls r : Interleaves ls r -> r ≡ₚ concat ls.
Proof.
  induction 1 as [ls Hall | ls i x xs r Hi _ IH].
  - induction Hall as [|l ls -> _ IHl]; [done|]. simpl. done.
  - rewrite IH. rewrite <- (take_drop_middle ls i (x :: xs)) at 2 by done.
    rewrite insert_take_drop by (by eapply lookup_lt_Some).
    rewrite !concat_app. simpl.
    by rewrite Permutation_middle.
Qed.

Lemma Interleaves_filter (P : A -> Prop) `{!forall x, Decision (P x)} ls r :
  Interleaves ls r -> Interleaves (filter P <$> ls) (filter P r).
Proof.
  induction 1 as [ls Hall | ls i x xs r Hi _ IH].
  - constructor. apply Forall_fmap. eapply Forall_impl; [done|].
    by intros l ->.
  - rewrite list_fmap_insert in IH.
    destruct (decide (P x)) as [HP|HP].
    + rewrite filter_cons_True by done.
      eapply (Interleaves_cons _ i _ (filter P xs)); [|done].
      rewrite list_lookup_fmap, Hi. simpl. by rewrite filter_cons_True.
    + rewrite filter_cons_False by done.
      rewrite list_insert_id in IH; [done|].
      rewrite list_lookup_fmap, Hi. simpl. by rewrite filter_cons_False.
Qed.

(** When one sender only has something to send, the channel delivers
    exactly its sequence. *)
Lemma Interleaves_single ls r j l :
  Interleaves ls r ->
  ls !! j = Some l ->
  (forall i l', i <> j -> ls !! i = Some l' -> l' = []) ->
  r = l.
Proof.
  intros H. revert l. induction H as [ls Hall | ls i x xs r Hi _ IH];
    intros l Hj Hothers.
  - rewrite Forall_lookup in Hall. symmetry. by eapply Hall.
  - destruct (decide (i = j)) as [->|Hne].
    + rewrite Hj in Hi. injection Hi as ->. f_equal.
      apply IH.
      * apply list_lookup_insert_eq. by eapply lookup_lt_Some.
      * intros i l' Hi' Hl'. rewrite list_lookup_insert_ne in Hl' by done.
        by eapply Hothers.
    + by specialize (Hothers i _ Hne Hi).
Qed.

Lemma Interleaves_all_nil ls r :
  Interleaves ls r -> Forall (fun l => l = []) ls -> r = [].
Proof.
  intros H Hall. apply Interleaves_Permutation in H.
  apply Permutation_nil_r. rewrite H. clear H.
  induction Hall as [|l ls' -> _ IHl]; [done|]. by simpl.
Qed.

Lemma Interleaves_skip ls r : Interleaves ls r -> Interleaves ([] :: ls) r.
Proof.
  induction 1 as [ls Hall | ls i x xs r Hi _ IH].
  - constructor. by constructor.
  - by eapply (Interleaves_cons _ (S i)).
Qed.

(** The lists in their order are one way to interleave them. *)
Lemma Interleaves_concat ls : Interleaves ls (concat ls).
Proof.
  induction ls as [|l ls IH]; simpl.
  - by constructor.
  - induction l as [|x l IHl]; simpl.
    + by apply Interleaves_skip.
    + by eapply (Interleaves_cons _ O).
Qed.
End interleaves.

(** ** Lemmas on the site map *)

Lemma buildSiteMap_snoc r u :
  buildSiteMap (r ++ [u]) = <[URL u := Links u]> (buildSiteMap r).
Proof. unfold buildSiteMap. by rewrite foldl_app. Qed.

(** A key is mapped to the links of the last entry that carries it. *)
Lemma buildSiteMap_lookup r k :
  buildSiteMap r !! k = Links <$> last (filter (fun u => URL u = k) r).
Proof.
  induction r as [|u r IH] using rev_ind; [done|].
  rewrite buildSiteMap_snoc, filter_app.
  destruct (decide (URL u = k)) as [<-|Hne].
  - rewrite lookup_insert_eq. rewrite filter_cons_True by done.
    by rewrite filter_nil, last_snoc.
  - rewrite lookup_insert_ne by done.
    rewrite filter_cons_False by done. by rewrite filter_nil, app_nil_r.
Qed.

Lemma sends_URL w u : Forall (fun x => URL x = URL u) (sends w u).
Proof.
  rewrite sends_eq. destruct (allowed w (URL u)); [|constructor].
  apply visit_sends_URL.
Qed.

Lemma filter_sends_same w u :
  filter (fun x => URL x = URL u) (sends w u) = sends w u.
Proof.
  pose proof (sends_URL w u) as H.
  induction H as [|x l Hx _ IH]; [done|].
  by rewrite filter_cons_True, IH.
Qed.

Lemma filter_sends_other w u k :
  URL u <> k -> filter (fun x => URL x = k) (sends w u) = [].
Proof.
  intros Hne. pose proof (sends_URL w u) as H.
  induction H as [|x l Hx _ IH]; [done|].
  rewrite filter_cons_False; [done|]. by rewrite Hx.
Qed.

(** The entries of the drained sequence that carry the URL of a task are
    the values the goroutine of that task sent, in the order sent. *)
Lemma run_entries_of_task w us crawled u :
  Interleaves (sends w <$> us) crawled ->
  NoDup (URL <$> us) ->
  u ∈ us ->
  filter (fun x => URL x = URL u) crawled = sends w u.
Proof.
  intros Hrun Hnd Hu.
  apply list_elem_of_lookup in Hu as [j Hj].
  apply (Interleaves_filter (fun x => URL x = URL u)) in Hrun.
  eapply (Interleaves_single _ _ j); [exact Hrun| |].
  - rewrite !list_lookup_fmap, Hj. simpl. by rewrite filter_sends_same.
  - intros i l' Hne Hi. rewrite !list_lookup_fmap in Hi.
    destruct (us !! i) as [u'|] eqn:Hui; [|done].
    simpl in Hi. injection Hi as <-.
    apply filter_sends_other. intros Heq. apply Hne.
    eapply (NoDup_lookup _ i j (URL u)); [done| |].
    + by rewrite list_lookup_fmap, Hui, <- Heq.
    + by rewrite list_lookup_fmap, Hj.
Qed.

(** In a run over tasks with distinct URLs, whatever the order of arrival,
    the site map holds for a task's URL the links of the last value its
    goroutine sent. *)
Lemma run_siteMap_lookup w us crawled u :
  Interleaves (sends w <$> us) crawled ->
  NoDup (URL <$> us) ->
  u ∈ us ->
  buildSiteMap crawled !! URL u = Links <$> last (sends w u).
Proof.
  intros Hrun Hnd Hu. rewrite buildSiteMap_lookup.
  by rewrite (run_entries_of_task w us crawled u).
Qed.

Lemma run_siteMap_lookup_None w us crawled k :
  Interleaves (sends w <$> us) crawled ->
  k ∉ URL <$> us ->
  buildSiteMap crawled !! k = None.
Proof.
  intros Hrun Hk. rewrite buildSiteMap_lookup.
  apply (Interleaves_filter (fun x => URL x = k)) in Hrun.
  apply Interleaves_all_nil in Hrun; [by rewrite Hrun|].
  apply Forall_fmap, Forall_fmap, Forall_forall. intros u Hu. simpl.
  apply filter_sends_other. intros <-. apply Hk.
  apply list_elem_of_fmap. eauto.
Qed.

(** ** Lemmas on the scheduler *)

Lemma spawn_above len cap rest :
  cap <= len -> spawn len cap rest = take 1 rest.
Proof.
  intros H. destruct rest as [|u rest]; [done|]. simpl.
  destruct (len >=? cap) eqn:E; [done|]. lia.
Qed.

Lemma spawn_below len cap rest :
  len < cap -> spawn len cap rest = rest.
Proof.
  intros H. induction rest as [|u rest IH]; [done|]. simpl.
  destruct (len >=? cap) eqn:E; [lia|]. by rewrite IH.
Qed.

(** What the loop of [threadedCrawl] launches: every task when the list
    is shorter than [concurrentCrawlers], the first task alone otherwise. *)
Lemma launched_eq urls concurrentCrawlers :
  launched urls concurrentCrawlers
  = if Z.of_nat (length urls) <? concurrentCrawlers then urls else take 1 urls.
Proof.
  unfold launched. destruct (Z.of_nat (length urls) <? concurrentCrawlers) eqn:E.
  - apply spawn_below. lia.
  - apply spawn_above. lia.
Qed.


Lemma createSiteMap_written w urls files :
  (createSiteMap w urls files).1.1 = None ->
  (createSiteMap w urls files).1.2 !! "siteMap.json"
  = Some (json_Marshal w (buildSiteMap urls)).1.
Proof.
  unfold createSiteMap.
  destruct (json_Marshal w (buildSiteMap urls)) as [jsonData err]. simpl.
  destruct (WriteFile_error w "siteMap.json" jsonData); [done|].
  intros _. simpl. apply lookup_insert_eq.
Qed.

(** ** The scheduling cap *)

Lemma documented_spawn_all len cap seen rest :
  seen + Z.of_nat (length rest) <= cap ->
  documented_spawn len cap seen rest = rest.
Proof.
  revert seen. induction rest as [|u rest IH]; intros seen H; [done|].
  simpl in *. destruct rest as [|u' rest].
  - by destruct (_ && _).
  - destruct (seen + 1 >=? cap) eqn:E; [simpl in H; lia|].
    rewrite andb_false_r. f_equal. apply IH. simpl in *. lia.
Qed.

(** Under the documented policy a list no longer than the cap is
    scheduled whole. *)
Lemma documented_launched_all urls cap :
  Z.of_nat (length urls) <= cap -> documented_launched urls cap = urls.
Proof. intros H. apply documented_spawn_all. lia. Qed.

(** The number of workers the loop of [threadedCrawl] launches. *)
Lemma launched_length urls cap :
  length (launched urls cap)
  = if Z.of_nat (length urls) <? cap then length urls
    else Nat.min 1 (length urls).
Proof.
  rewrite launched_eq. destruct (Z.of_nat (length urls) <? cap); [done|].
  by rewrite length_take.
Qed.

(** C1. A list of two tasks with a cap of two is within the cap, and a
    list of three tasks with a cap of two is truncated to two by the
    documented policy; the loop of [threadedCrawl] launches one worker in
    both cases, because it compares the length of the whole list, not the
    number of tasks it has started, with the cap. *)
Theorem threadedCrawl_launches_one_at_cap :
  length (launched [denied_task; ok_task] 2) = 1%nat
  /\ length (documented_launched [denied_task; ok_task] 2) = 2%nat
  /\ length (launched [denied_task; missing_task; ok_task] 2) = 1%nat
  /\ length (documented_launched [denied_task; missing_task; ok_task] 2) = 2%nat.
Proof. repeat split. Qed.

(** ** The robots policy gate *)

Lemma gate_parse_error w urlStr :
  url.Parse urlStr = None -> allowed w urlStr = false.
Proof. intros H. unfold allowed, isURLAllowedByRobotsTXT. by rewrite H. Qed.

(** [url.Parse] takes a string without scheme and without a colon in its
    first segment as a relative path; the host is empty, and no request
    for [http:///robots.txt] leaves the process. *)
Lemma not_a_url_parses :
  url.Parse "not a url" = Some (url.mkURL "" "" "" "not a url" "" "").
Proof. reflexivity. Qed.

Lemma not_a_url_allowed w : allowed w "not a url" = true.
Proof. reflexivity. Qed.

(** C4. When the URL parses and either the GET of the host's robots.txt
    fails or the document it returns does not parse, the gate allows the
    URL. *)
Theorem gate_fails_open w urlStr parsedURL :
  url.Parse urlStr = Some parsedURL ->
  (http_Get w ("http://" +:+ url.Host parsedURL +:+ "/robots.txt") = None
   \/ exists resp,
        http_Get w ("http://" +:+ url.Host parsedURL +:+ "/robots.txt") = Some resp
        /\ FromResponse w resp = None) ->
  allowed w urlStr = true.
Proof.
  intros Hp H. unfold allowed, isURLAllowedByRobotsTXT. rewrite Hp.
  destruct H as [-> | (resp & -> & ->)]; reflexivity.
Qed.

Lemma gate_fails_open_witness :
  url.Parse "http://b.test/missing"
  = Some (url.mkURL "http" "" "b.test" "/missing" "" "")
  /\ http_Get three_hosts "http://b.test/robots.txt" = None
  /\ allowed three_hosts "http://b.test/missing" = true.
Proof.
  split; [reflexivity|]. split; [reflexivity|].
  apply (gate_fails_open three_hosts "http://b.test/missing"
           (url.mkURL "http" "" "b.test" "/missing" "" "")).
  - reflexivity.
  - left. reflexivity.
Defined.

(** The second way to fail open: the document is served and rejected by
    the robots engine. *)
Example gate_fails_open_unparseable :
  allowed
    {| RobotsData := unit; FromResponse _ := None; TestAgent _ _ _ := false;
       RoundTrip _ := Some (mkHttpResponse 200 "<html>");
       backend _ := None; AbsoluteURL _ href := href;
       GetRandomUserAgent _ := "agent"; json_Marshal _ := ("{}", None);
       WriteFile_error _ _ := None |}
    "https://www.kaggle.com/search?q=stocks" = true.
Proof. reflexivity. Qed.

(** C5, as stated, fails: the string of the specification's example is
    not malformed for [url.Parse], and the gate allows it even where
    every robots.txt is served and forbids everything. *)
Lemma gate_allows_not_a_url :
  url.Parse "not a url" <> None
  /\ allowed deny_all "not a url" = true.
Proof. split; [discriminate | reflexivity]. Qed.

(** C5, amended. A string that [url.Parse] rejects is denied; the string
    [not a url] is not one of them: it parses as a relative path with an
    empty host and is allowed in every world. *)
Theorem gate_fails_closed_on_parse_error w urlStr :
  url.Parse urlStr = None ->
  allowed w urlStr = false /\ allowed w "not a url" = true.
Proof. intros H. split; [by apply gate_parse_error | reflexivity]. Qed.

Lemma gate_fails_closed_on_parse_error_witness :
  url.Parse "http://not a url" = None
  /\ allowed three_hosts "http://not a url" = false
  /\ allowed three_hosts "not a url" = true.
Proof.
  split; [reflexivity|].
  apply (gate_fails_closed_on_parse_error three_hosts "http://not a url").
  reflexivity.
Defined.

(** C10. When the robots document is fetched and parsed, the verdict is
    the engine's test of the whole URL string, as given, for the agent
    [GoEngine]. *)
Theorem gate_tests_whole_url w urlStr parsedURL resp data :
  url.Parse urlStr = Some parsedURL ->
  http_Get w ("http://" +:+ url.Host parsedURL +:+ "/robots.txt") = Some resp ->
  FromResponse w resp = Some data ->
  allowed w urlStr = TestAgent w data urlStr "GoEngine".
Proof.
  intros Hp Hget Hdata. unfold allowed, isURLAllowedByRobotsTXT.
  by rewrite Hp, Hget, Hdata.
Qed.

(** On [a.test] the prefix [/private] is forbidden: the path of
    [http://a.test/private] fails the test, the whole URL passes it, and
    the gate allows the URL. *)
Lemma gate_tests_whole_url_witness :
  let parsedURL := url.mkURL "http" "" "a.test" "/private" "" "" in
  let resp := mkHttpResponse 200 "/private" in
  url.Parse "http://a.test/private" = Some parsedURL
  /\ http_Get three_hosts "http://a.test/robots.txt" = Some resp
  /\ FromResponse three_hosts resp = Some ["/private"]
  /\ TestAgent three_hosts ["/private"] (url.Path parsedURL) "GoEngine" = false
  /\ TestAgent three_hosts ["/private"] "http://a.test/private" "GoEngine" = true
  /\ allowed three_hosts "http://a.test/private"
     = TestAgent three_hosts ["/private"] "http://a.test/private" "GoEngine".
Proof.
  repeat (split; [reflexivity|]).
  apply (gate_tests_whole_url three_hosts "http://a.test/private"
           (url.mkURL "http" "" "a.test" "/private" "" "")
           (mkHttpResponse 200 "/private") ["/private"]); reflexivity.
Defined.

(** ** The fetch worker: what reaches the channel *)

(** C2. An allowed worker sends its task twice when the fetch ends with
    an HTTP 200 response (in the response callback, then after [Visit]),
    and once otherwise (after [Visit] only); every value sent carries the
    URL of the task. *)
Theorem crawlURL_sends_twice_on_200 w u s :
  allowed w (URL u) = true ->
  exists new,
    ch (crawlURL w u s) = ch s ++ new
    /\ length new = (if got_200 w (URL u) then 2%nat else 1%nat)
    /\ Forall (fun x => URL x = URL u) new.
Proof.
  intros Hal. exists (visit_sends w u). rewrite crawlURL_ch, Hal.
  split; [done|]. split; [apply visit_sends_length | apply visit_sends_URL].
Qed.

Lemma crawlURL_sends_twice_on_200_witness :
  allowed three_hosts (URL ok_task) = true
  /\ got_200 three_hosts (URL ok_task) = true
  /\ exists new,
       ch (crawlURL three_hosts ok_task idle) = ch idle ++ new
       /\ length new
          = (if got_200 three_hosts (URL ok_task) then 2%nat else 1%nat)
       /\ Forall (fun x => URL x = URL ok_task) new.
Proof.
  split; [reflexivity|]. split; [reflexivity|].
  apply (crawlURL_sends_twice_on_200 three_hosts ok_task idle). reflexivity.
Defined.

(** The three outcomes of the claim, evaluated: a 200 response, a 404
    response, a request that fails. *)
Example crawlURL_ok_sends :
  ch (crawlURL three_hosts ok_task idle)
  = [ok_task;
     mkURLData "http://a.test/" 0 ["http://a.test/x"; "http://d.test/y"]].
Proof. reflexivity. Qed.

Example crawlURL_missing_sends :
  ch (crawlURL three_hosts missing_task idle) = [missing_task].
Proof. reflexivity. Qed.

Example crawlURL_unreachable_sends :
  ch (crawlURL three_hosts (seed "http://e.test/") idle) = [seed "http://e.test/"].
Proof. reflexivity. Qed.

(** C9, as stated, fails: the value pushed in the 200 callback of the
    page [http://a.test/] carries no link, while the page yields two. *)
Lemma response_push_carries_no_link :
  allowed three_hosts (URL ok_task) = true
  /\ (exists r, fetched three_hosts (URL ok_task) = Some r
                /\ StatusCode r = 200
                /\ discovered three_hosts (URL ok_task) r
                   = ["http://a.test/x"; "http://d.test/y"])
  /\ Links <$> head (sends three_hosts ok_task) = Some [].
Proof.
  split; [reflexivity|]. split; [|reflexivity].
  eexists. split; [reflexivity|]. split; reflexivity.
Qed.

(** C9, amended. Within one task's fetch the 200 response callback runs
    before the link callbacks: the value it pushes is the task as the
    worker received it, with none of the page's links; the link callbacks
    all run before the final push, whose value carries every link
    discovered on the page, in document order. *)
Theorem links_reach_final_push_only w u s r :
  allowed w (URL u) = true ->
  fetched w (URL u) = Some r ->
  StatusCode r = 200 ->
  ch (crawlURL w u s) = ch s ++ [u; with_links u (discovered w (URL u) r)].
Proof.
  intros Hal Hr H200. rewrite crawlURL_ch, Hal. unfold visit_sends.
  rewrite Hr, H200. reflexivity.
Qed.

Lemma links_reach_final_push_only_witness :
  let r := mkResponse 200 true
             (fun sel => if String.eqb sel "a[href]"
                         then [anchor "x"; anchor "http://d.test/y"] else []) in
  allowed three_hosts (URL ok_task) = true
  /\ fetched three_hosts (URL ok_task) = Some r
  /\ StatusCode r = 200
  /\ ch (crawlURL three_hosts ok_task idle)
     = ch idle ++ [ok_task;
                   with_links ok_task (discovered three_hosts (URL ok_task) r)].
Proof.
  repeat (split; [reflexivity|]).
  apply (links_reach_final_push_only three_hosts ok_task idle); reflexivity.
Defined.

(** ** A run: the drained sequence and the site map *)

Lemma sends_crawlURL w u s : ch (crawlURL w u s) = ch s ++ sends w u.
Proof. by rewrite crawlURL_ch, sends_eq. Qed.

(** The drained sequence holds the values the goroutines sent, no more
    and no less. *)
Lemma run_entry_sender w us crawled x :
  Interleaves (sends w <$> us) crawled ->
  x ∈ crawled <-> exists u, u ∈ us /\ x ∈ sends w u.
Proof.
  intros Hrun. apply Interleaves_Permutation in Hrun. rewrite Hrun.
  rewrite list_elem_of_In, in_concat. split.
  - intros (l & Hl & Hx). apply list_elem_of_In in Hl.
    apply list_elem_of_fmap in Hl as (u & -> & Hu).
    exists u. split; [done|]. by apply list_elem_of_In.
  - intros (u & Hu & Hx). exists (sends w u).
    rewrite <- !list_elem_of_In. split; [|done].
    apply list_elem_of_fmap. eauto.
Qed.

(** C6. A worker whose task the gate denies returns with the channel as
    it found it, and a worker whose task is allowed adds at least one
    value.  In a run, whatever the order of arrival, the drained sequence
    therefore holds no entry with the URL of a denied task and at least
    one entry with the URL of an allowed task. *)
Theorem denied_task_sends_nothing w us crawled u :
  Interleaves (sends w <$> us) crawled ->
  u ∈ us ->
  if allowed w (URL u)
  then (forall s, exists x new, ch (crawlURL w u s) = ch s ++ x :: new)
       /\ (exists x, x ∈ crawled /\ URL x = URL u)
  else (forall s, ch (crawlURL w u s) = ch s)
       /\ (forall x, x ∈ crawled -> URL x <> URL u).
Proof.
  intros Hrun Hu.
  pose proof (visit_sends_length w u) as Hlen.
  pose proof (sends_URL w u) as HURL. rewrite Forall_forall in HURL.
  destruct (allowed w (URL u)) eqn:Hal.
  - assert (exists x new, visit_sends w u = x :: new) as (x & new & Hx).
    { destruct (visit_sends w u) as [|x new]; [|by eauto].
      simpl in Hlen. by destruct (got_200 w (URL u)). }
    split.
    + intros s. rewrite crawlURL_ch, Hal, Hx. eauto.
    + assert (x ∈ sends w u) as Hin.
      { rewrite sends_eq, Hal, Hx. apply list_elem_of_here. }
      exists x. split; [|by apply HURL].
      apply (run_entry_sender w us crawled x Hrun). eauto.
  - split.
    + intros s. by rewrite crawlURL_ch, Hal, app_nil_r.
    + intros x Hx Heq.
      apply (run_entry_sender w us crawled x Hrun) in Hx as (u' & _ & Hx').
      pose proof (sends_URL w u') as HURL'. rewrite Forall_forall in HURL'.
      assert (URL u' = URL u) as Hsame by (by rewrite <- (HURL' x Hx')).
      rewrite sends_eq, Hsame, Hal in Hx'. by apply elem_of_nil in Hx'.
Qed.

Lemma three_hosts_run :
  Interleaves
    (sends three_hosts <$> [denied_task; missing_task; ok_task])
    [missing_task; ok_task; ok_crawled].
Proof.
  exact (Interleaves_concat [[]; [missing_task]; [ok_task; ok_crawled]]).
Qed.

Lemma denied_task_sends_nothing_witness :
  let us := [denied_task; missing_task; ok_task] in
  let crawled := [missing_task; ok_task; ok_crawled] in
  Interleaves (sends three_hosts <$> us) crawled
  /\ denied_task ∈ us
  /\ allowed three_hosts (URL denied_task) = false
  /\ (forall s, ch (crawlURL three_hosts denied_task s) = ch s)
  /\ (forall x, x ∈ crawled -> URL x <> URL denied_task).
Proof.
  intros us crawled.
  assert (denied_task ∈ us) as Hin by (subst us; apply list_elem_of_here).
  split; [exact three_hosts_run|]. split; [exact Hin|].
  split; [reflexivity|].
  exact (denied_task_sends_nothing three_hosts us crawled denied_task
           three_hosts_run Hin).
Defined.

(** The site map of a run over three tasks of which one is denied, one
    answered 404 and one answered 200 with two anchors. *)
Lemma three_url_siteMap_lookup w uD uN uO rN rO n1 n2 urls crawled k :
  urls ≡ₚ [uD; uN; uO] ->
  URL uD <> URL uN -> URL uD <> URL uO -> URL uN <> URL uO ->
  allowed w (URL uD) = false ->
  allowed w (URL uN) = true ->
  allowed w (URL uO) = true ->
  fetched w (URL uN) = Some rN -> StatusCode rN = 404 ->
  fetched w (URL uO) = Some rO -> StatusCode rO = 200 ->
  ContentTypeHTML rO = true -> Find rO "a[href]" = [n1; n2] ->
  Interleaves (sends w <$> urls) crawled ->
  buildSiteMap crawled !! k
  = ({[ URL uO :=
          (Links uO ++ [AbsoluteURL w (URL uO) (Attr (mkElement n1 (URL uO)) "href");
                        AbsoluteURL w (URL uO) (Attr (mkElement n2 (URL uO)) "href")]);
        URL uN := Links uN ]} : gmap string (list string)) !! k.
Proof.
  intros Hperm HDN HDO HNO HaD HaN HaO HrN HsN HrO HsO Hhtml Hfind Hrun.
  assert (NoDup (URL <$> urls)) as Hnd.
  { rewrite Hperm. simpl. rewrite !NoDup_cons, !elem_of_cons, !elem_of_nil.
    split_and!; [tauto..|apply NoDup_nil_2]. }
  assert (forall u, u ∈ urls <-> u = uD \/ u = uN \/ u = uO) as Hin.
  { intros u. rewrite Hperm, !elem_of_cons, elem_of_nil. tauto. }
  destruct (decide (k = URL uO)) as [->|HkO];
    [|destruct (decide (k = URL uN)) as [->|HkN];
      [|destruct (decide (k = URL uD)) as [->|HkD]]].
  - rewrite (run_siteMap_lookup w urls crawled uO) by (done || apply Hin; auto).
    rewrite lookup_insert_eq, sends_eq, HaO. unfold visit_sends.
    rewrite HrO, HsO. simpl. unfold discovered. by rewrite Hhtml, Hfind.
  - rewrite (run_siteMap_lookup w urls crawled uN) by (done || apply Hin; auto).
    rewrite lookup_insert_ne, lookup_singleton_eq by done.
    rewrite sends_eq, HaN. unfold visit_sends. by rewrite HrN, HsN.
  - rewrite (run_siteMap_lookup w urls crawled uD) by (done || apply Hin; auto).
    rewrite lookup_insert_ne, lookup_singleton_ne by done.
    by rewrite sends_eq, HaD.
  - rewrite (run_siteMap_lookup_None w urls crawled k); [|done|].
    + by rewrite lookup_insert_ne, lookup_singleton_ne.
    + rewrite Hperm. simpl. rewrite !elem_of_cons, elem_of_nil. tauto.
Qed.

(** C3, as stated, fails: in the run over the three tasks of
    [three_hosts] the URL answered 404 is a key of the site map, mapped
    to no links, and the map has two keys. *)
Lemma three_url_run_keeps_404 :
  allowed three_hosts (URL denied_task) = false
  /\ (StatusCode <$> fetched three_hosts (URL missing_task)) = Some 404
  /\ (StatusCode <$> fetched three_hosts (URL ok_task)) = Some 200
  /\ threadedCrawl three_hosts [denied_task; missing_task; ok_task] 10 ∅
       [missing_task; ok_task; ok_crawled]
       (createSiteMap three_hosts [missing_task; ok_task; ok_crawled] ∅)
  /\ buildSiteMap [missing_task; ok_task; ok_crawled] !! "http://b.test/missing"
     = Some []
  /\ size (buildSiteMap [missing_task; ok_task; ok_crawled]) = 2%nat.
Proof.
  repeat (split; [reflexivity|]).
  split; [split; [exact three_hosts_run | reflexivity]|].
  split; [reflexivity|]. vm_compute. reflexivity.
Qed.

(** C3, amended. In a run over three seeds with distinct URLs, all
    launched, of which one is denied by the gate, one is answered 404
    and one is answered 200 with two anchors, the site map has exactly
    two keys: the URL answered 200, mapped to the two links discovered
    (after the links the seed already had), and the URL answered 404,
    mapped to the links its seed had; the denied URL is not a key.  When
    the write succeeds, the file holds the encoding of that map. *)
Theorem three_url_run_siteMap w uD uN uO rN rO n1 n2 urls cap files crawled result :
  urls ≡ₚ [uD; uN; uO] ->
  3 < cap ->
  URL uD <> URL uN -> URL uD <> URL uO -> URL uN <> URL uO ->
  allowed w (URL uD) = false ->
  allowed w (URL uN) = true ->
  allowed w (URL uO) = true ->
  fetched w (URL uN) = Some rN -> StatusCode rN = 404 ->
  fetched w (URL uO) = Some rO -> StatusCode rO = 200 ->
  ContentTypeHTML rO = true -> Find rO "a[href]" = [n1; n2] ->
  threadedCrawl w urls cap files crawled result ->
  let siteMap : gmap string (list string) :=
    {[ URL uO :=
         (Links uO ++ [AbsoluteURL w (URL uO) (Attr (mkElement n1 (URL uO)) "href");
                       AbsoluteURL w (URL uO) (Attr (mkElement n2 (URL uO)) "href")]);
       URL uN := Links uN ]} in
  buildSiteMap crawled = siteMap
  /\ dom siteMap = {[ URL uO; URL uN ]}
  /\ (URL uD ∉ dom siteMap)
  /\ (result.1.1 = None ->
      result.1.2 !! "siteMap.json" = Some (json_Marshal w siteMap).1).
Proof.
  intros Hperm Hcap HDN HDO HNO HaD HaN HaO HrN HsN HrO HsO Hhtml Hfind
    [Hrun ->] siteMap.
  assert (launched urls cap = urls) as Hall.
  { rewrite launched_eq. apply Permutation_length in Hperm. simpl in Hperm.
    destruct (Z.of_nat (length urls) <? cap) eqn:E; [done|]. lia. }
  rewrite Hall in Hrun.
  assert (buildSiteMap crawled = siteMap) as Hmap.
  { apply map_eq. intros k. subst siteMap.
    by eapply (three_url_siteMap_lookup w uD uN uO rN rO n1 n2 urls). }
  split; [done|]. split; [|split].
  - subst siteMap. rewrite dom_insert_L, dom_singleton_L. done.
  - subst siteMap. rewrite dom_insert_L, dom_singleton_L.
    rewrite elem_of_union, !elem_of_singleton. tauto.
  - intros Hok. rewrite <- Hmap. by apply createSiteMap_written.
Qed.

Lemma three_url_run_siteMap_witness :
  let w := three_hosts in
  let urls := [denied_task; missing_task; ok_task] in
  let crawled := [missing_task; ok_task; ok_crawled] in
  let result := createSiteMap w crawled ∅ in
  let siteMap : gmap string (list string) :=
    {[ "http://a.test/" := ["http://a.test/x"; "http://d.test/y"];
       "http://b.test/missing" := [] ]} in
  threadedCrawl w urls 10 ∅ crawled result
  /\ buildSiteMap crawled = siteMap
  /\ dom siteMap = {[ "http://a.test/"; "http://b.test/missing" ]}
  /\ ("http://c.test/private" ∉ dom siteMap)
  /\ (result.1.1 = None ->
      result.1.2 !! "siteMap.json" = Some (json_Marshal w siteMap).1).
Proof.
  intros w urls crawled result siteMap.
  assert (threadedCrawl w urls 10 ∅ crawled result) as Hrun.
  { split; [exact three_hosts_run | reflexivity]. }
  split; [exact Hrun|].
  refine (three_url_run_siteMap w denied_task missing_task ok_task
            (mkResponse 404 true (fun _ => []))
            (mkResponse 200 true
               (fun sel => if String.eqb sel "a[href]"
                           then [anchor "x"; anchor "http://d.test/y"] else []))
            (anchor "x") (anchor "http://d.test/y")
            urls 10 ∅ crawled result
            _ _ _ _ _ _ _ _ _ _ _ _ _ _ Hrun);
    try reflexivity; try discriminate.
Defined.

(** ** The rate limit *)

(** The collector the goroutine limits sends nothing; every request of
    the goroutine comes from the collector [crawlURL] creates, which
    holds no limit rule. *)
Lemma goroutine_requests_unlimited w u :
  LimitRules (goroutine w u).1 = [rateLimitRule]
  /\ Forall (fun r => req_LimitRules r = []) (wire (goroutine w u).2).
Proof.
  split; [reflexivity|]. unfold goroutine, draw. cbn -[crawlURL].
  rewrite crawlURL_wire. simpl.
  destruct (allowed w (URL u) && request_sent (URL u)); repeat constructor.
Qed.

(** C7. The goroutine started for the task [http://a.test/] builds a
    collector and gives it the rule (glob [*], delay 5s, random delay
    5s), but the one request of the goroutine is sent by the collector
    that [crawlURL] creates, and that collector holds no limit rule. *)
Theorem fetching_collector_has_no_limit_rule :
  rateLimitRule = mkLimitRule "*" 5000000000 5000000000
  /\ LimitRules (goroutine three_hosts ok_task).1 = [rateLimitRule]
  /\ wire (goroutine three_hosts ok_task).2
     = [mkRequest "http://a.test/" "agent" []].
Proof. repeat split. Qed.

(** ** The error of [createSiteMap] *)



(** The write error, on the other hand, is returned. *)
Lemma createSiteMap_returns_write_error w urls files e :
  WriteFile_error w "siteMap.json" (json_Marshal w (buildSiteMap urls)).1 = Some e ->
  createSiteMap w urls files = (Some e, files, [ErrorWritingSitemap e]).
Proof.
  unfold createSiteMap.
  destruct (json_Marshal w (buildSiteMap urls)) as [jsonData err]. simpl.
  by intros ->.
Qed.

(** ** Further properties of the crawl engine *)

(** X1. On every path (denied, request refused or failed, any status)
    [crawlURL] takes one off the wait-group counter, exactly once, and
    what was on the channel before stays there, in front. *)
Theorem crawlURL_done_exactly_once w u s :
  wg (crawlURL w u s) = wg s - 1
  /\ exists new, ch (crawlURL w u s) = ch s ++ new.
Proof. split; [apply crawlURL_wg|]. rewrite crawlURL_ch. eauto. Qed.

(** X2. [crawlURL] sends at most one page request, for the URL of its
    task, and none at all when the gate denies the URL or the URL is
    empty. *)
Theorem crawlURL_at_most_one_request w u s :
  exists rs,
    wire (crawlURL w u s) = wire s ++ rs
    /\ (length rs <= 1)%nat
    /\ Forall (fun r => req_URL r = URL u) rs
    /\ (allowed w (URL u) = false \/ URL u = "" -> rs = []).
Proof.
  rewrite crawlURL_wire. eexists. split; [reflexivity|].
  unfold request_sent.
  destruct (allowed w (URL u)); simpl.
  2:{ repeat split; auto. }
  destruct (String.eqb (URL u) "") eqn:E; simpl.
  - repeat split; auto.
  - destruct (bool_decide _); simpl.
    + split; [lia|]. split; [by repeat constructor|].
      intros [?| Hu]; [done|]. rewrite Hu in E. done.
    + repeat split; auto.
Qed.

(** X3. The loop of [threadedCrawl] starts a goroutine for every task
    when the list is shorter than [concurrentCrawlers], and for the first
    task alone otherwise; a list that is not empty gets at least one
    goroutine whatever the cap, and no task is started twice or out of
    order. *)
Theorem launched_all_or_first urls concurrentCrawlers :
  launched urls concurrentCrawlers
  = (if Z.of_nat (length urls) <? concurrentCrawlers then urls else take 1 urls)
  /\ launched urls concurrentCrawlers `prefix_of` urls
  /\ (urls <> [] -> launched urls concurrentCrawlers <> []).
Proof.
  rewrite launched_eq. destruct (Z.of_nat (length urls) <? concurrentCrawlers).
  - split; [done|]. split; [done|]. done.
  - split; [done|]. split; [apply prefix_take|].
    by destruct urls.
Qed.

Lemma launched_all_or_first_witness :
  [denied_task; ok_task] <> []
  /\ launched [denied_task; ok_task] 0 = [denied_task]
  /\ launched [denied_task; ok_task] 3 = [denied_task; ok_task]
  /\ launched [denied_task; ok_task] 0 <> [].
Proof.
  assert ([denied_task; ok_task] <> []) as Hne by discriminate.
  destruct (launched_all_or_first [denied_task; ok_task] 0) as (H0 & _ & Hsome).
  destruct (launched_all_or_first [denied_task; ok_task] 3) as (H3 & _ & _).
  split; [exact Hne|]. split; [exact H0|]. split; [exact H3 | exact (Hsome Hne)].
Defined.

(** X4. The map [createSiteMap] builds holds, for a key, the links of the
    last entry of the sequence that carries this URL, and no value when
    no entry carries it: of two entries for one URL the later wins. *)
Theorem siteMap_last_entry_wins r k :
  buildSiteMap r !! k = Links <$> last (filter (fun u => URL u = k) r).
Proof. apply buildSiteMap_lookup. Qed.

(** The keys of the site map of a run. *)
Lemma run_siteMap_keys w urls cap files crawled result k :
  threadedCrawl w urls cap files crawled result ->
  k ∈ dom (buildSiteMap crawled)
  <-> exists u, u ∈ launched urls cap /\ URL u = k /\ allowed w k = true.
Proof.
  intros [Hrun _]. rewrite elem_of_dom, buildSiteMap_lookup, fmap_is_Some.
  split.
  - intros [x Hx]. apply last_Some_elem_of in Hx.
    apply list_elem_of_filter in Hx as [Hk Hx].
    apply (run_entry_sender w _ crawled x Hrun) in Hx as (u & Hu & Hxu).
    pose proof (sends_URL w u) as HURL. rewrite Forall_forall in HURL.
    exists u. split; [done|]. rewrite <- Hk, (HURL x Hxu). split; [done|].
    rewrite sends_eq in Hxu. destruct (allowed w (URL u)); [done|].
    by apply elem_of_nil in Hxu.
  - intros (u & Hu & <- & Hal).
    pose proof (visit_sends_length w u) as Hlen.
    destruct (visit_sends w u) as [|x new] eqn:Hx.
    { simpl in Hlen. by destruct (got_200 w (URL u)). }
    assert (x ∈ sends w u) as Hin.
    { rewrite sends_eq, Hal, Hx. apply list_elem_of_here. }
    pose proof (sends_URL w u) as HURL. rewrite Forall_forall in HURL.
    assert (x ∈ filter (fun y => URL y = URL u) crawled) as Hf.
    { apply list_elem_of_filter. split; [by apply HURL|].
      apply (run_entry_sender w _ crawled x Hrun). eauto. }
    destruct (filter (fun y => URL y = URL u) crawled) as [|y l] eqn:Hfl
      using rev_ind; [by apply elem_of_nil in Hf|].
    rewrite last_snoc. eauto.
Qed.

(** X5. In every run of [threadedCrawl], whatever the order of arrival,
    the keys of the site map are exactly the URLs of the launched tasks
    that the gate allows: a link discovered on a page never becomes a
    key, and an allowed task is a key even when its fetch fails. *)
Theorem siteMap_keys_are_allowed_tasks w urls cap files crawled result k :
  threadedCrawl w urls cap files crawled result ->
  k ∈ dom (buildSiteMap crawled)
  <-> exists u, u ∈ launched urls cap /\ URL u = k /\ allowed w k = true.
Proof. apply run_siteMap_keys. Qed.

Lemma launched_NoDup urls cap :
  NoDup (URL <$> urls) -> NoDup (URL <$> launched urls cap).
Proof.
  intros Hnd. rewrite launched_eq.
  destruct (Z.of_nat (length urls) <? cap); [done|].
  rewrite fmap_take. rewrite <- (take_drop 1 (URL <$> urls)) in Hnd.
  by apply NoDup_app in Hnd as [? _].
Qed.

(** X6. When the tasks have distinct URLs, the site map of a run does not
    depend on the order in which the results arrive: two drained
    sequences of the same crawl give the same map. *)
Theorem siteMap_independent_of_arrival w urls cap files crawled1 result1
  crawled2 result2 :
  NoDup (URL <$> urls) ->
  threadedCrawl w urls cap files crawled1 result1 ->
  threadedCrawl w urls cap files crawled2 result2 ->
  buildSiteMap crawled1 = buildSiteMap crawled2 /\ result1 = result2.
Proof.
  intros Hnd [Hrun1 ->] [Hrun2 ->].
  apply (launched_NoDup urls cap) in Hnd.
  assert (buildSiteMap crawled1 = buildSiteMap crawled2) as Heq.
  { apply map_eq. intros k.
    destruct (decide (k ∈ URL <$> launched urls cap)) as [Hk|Hk].
    - apply list_elem_of_fmap in Hk as (u & -> & Hu).
      by rewrite (run_siteMap_lookup w (launched urls cap) crawled1 u),
                 (run_siteMap_lookup w (launched urls cap) crawled2 u).
    - by rewrite (run_siteMap_lookup_None w (launched urls cap) crawled1 k),
                 (run_siteMap_lookup_None w (launched urls cap) crawled2 k). }
  split; [done|]. unfold createSiteMap. by rewrite Heq.
Qed.

Lemma three_hosts_other_run :
  Interleaves
    (sends three_hosts <$> [denied_task; missing_task; ok_task])
    [ok_task; missing_task; ok_crawled].
Proof.
  eapply (Interleaves_cons _ 2); [reflexivity|].
  eapply (Interleaves_cons _ 1); [reflexivity|].
  eapply (Interleaves_cons _ 2); [reflexivity|].
  constructor. repeat constructor.
Qed.

Lemma siteMap_independent_of_arrival_witness :
  let urls := [denied_task; missing_task; ok_task] in
  let crawled1 := [missing_task; ok_task; ok_crawled] in
  let crawled2 := [ok_task; missing_task; ok_crawled] in
  NoDup (URL <$> urls)
  /\ threadedCrawl three_hosts urls 10 ∅ crawled1
       (createSiteMap three_hosts crawled1 ∅)
  /\ threadedCrawl three_hosts urls 10 ∅ crawled2
       (createSiteMap three_hosts crawled2 ∅)
  /\ buildSiteMap crawled1 = buildSiteMap crawled2
  /\ createSiteMap three_hosts crawled1 ∅ = createSiteMap three_hosts crawled2 ∅.
Proof.
  intros urls crawled1 crawled2.
  assert (NoDup (URL <$> urls)) as Hnd.
  { apply (bool_decide_unpack _). vm_compute. exact I. }
  assert (threadedCrawl three_hosts urls 10 ∅ crawled1
            (createSiteMap three_hosts crawled1 ∅)) as H1.
  { split; [exact three_hosts_run | reflexivity]. }
  assert (threadedCrawl three_hosts urls 10 ∅ crawled2
            (createSiteMap three_hosts crawled2 ∅)) as H2.
  { split; [exact three_hosts_other_run | reflexivity]. }
  split; [exact Hnd|]. split; [exact H1|]. split; [exact H2|].
  exact (siteMap_independent_of_arrival three_hosts urls 10 ∅ crawled1 _
           crawled2 _ Hnd H1 H2).
Defined.

(** The number of values a goroutine sends. *)
Lemma sends_length w u :
  length (sends w u)
  = if allowed w (URL u) then (if got_200 w (URL u) then 2%nat else 1%nat)
    else 0%nat.
Proof.
  rewrite sends_eq. destruct (allowed w (URL u)); [|done].
  apply visit_sends_length.
Qed.

Lemma length_concat_sum {A} (ls : list (list A)) :
  length (concat ls) = sum_list (length <$> ls).
Proof.
  induction ls as [|l ls IH]; [done|]. simpl. by rewrite length_app, IH.
Qed.

(** The number of values the drain loop receives. *)
Lemma run_drained_count w urls cap files crawled result :
  threadedCrawl w urls cap files crawled result ->
  length crawled
  = sum_list ((fun u => if allowed w (URL u)
                        then (if got_200 w (URL u) then 2%nat else 1%nat)
                        else 0%nat) <$> launched urls cap)
  /\ (length crawled <= 2 * length urls)%nat.
Proof.
  intros [Hrun _]. apply Interleaves_Permutation in Hrun.
  assert (length crawled
          = sum_list ((fun u => if allowed w (URL u)
                                then (if got_200 w (URL u) then 2%nat else 1%nat)
                                else 0%nat) <$> launched urls cap)) as Hlen.
  { rewrite Hrun, length_concat_sum, <- list_fmap_compose. f_equal.
    apply list_fmap_ext. intros _ u _. simpl. apply sends_length. }
  split; [done|]. rewrite Hlen.
  assert (length (launched urls cap) <= length urls)%nat as Hle.
  { rewrite launched_eq. destruct (_ <? _); [done|]. rewrite length_take. lia. }
  etrans; [|apply Nat.mul_le_mono_l, Hle].
  generalize (launched urls cap). clear.
  intros l. induction l as [|u l IH]; csimpl; [lia|].
  destruct (allowed w (URL u)), (got_200 w (URL u)); lia.
Qed.

(** X7. The drain loop of [threadedCrawl] receives two values for every
    launched task that is allowed and answered 200, one for every other
    allowed task and none for a denied task; in all at most twice the
    number of tasks, which can exceed the capacity [len(urls)] of the
    channel. *)
Theorem drained_count w urls cap files crawled result :
  threadedCrawl w urls cap files crawled result ->
  length crawled
  = sum_list ((fun u => if allowed w (URL u)
                        then (if got_200 w (URL u) then 2%nat else 1%nat)
                        else 0%nat) <$> launched urls cap)
  /\ (length crawled <= 2 * length urls)%nat.
Proof. apply run_drained_count. Qed.

Lemma drained_count_witness :
  let urls := [ok_task] in
  let crawled := [ok_task; ok_crawled] in
  threadedCrawl three_hosts urls 10 ∅ crawled (createSiteMap three_hosts crawled ∅)
  /\ length crawled = 2%nat
  /\ (length urls < length crawled)%nat
  /\ (length crawled <= 2 * length urls)%nat.
Proof.
  intros urls crawled.
  assert (threadedCrawl three_hosts urls 10 ∅ crawled
            (createSiteMap three_hosts crawled ∅)) as H.
  { split; [|reflexivity].
    exact (Interleaves_concat [[ok_task; ok_crawled]]). }
  split; [exact H|].
  destruct (drained_count three_hosts urls 10 ∅ crawled _ H) as [Hn Hle].
  split; [exact Hn|]. split; [repeat constructor | exact Hle].
Defined.

(** X8. A URL that parses with an empty host (a relative reference, a
    [mailto:] address, the empty string) is allowed by the gate in every
    world: the robots.txt request for the empty host never leaves the
    process, and the gate fails open. *)
Theorem gate_allows_hostless_url w urlStr parsedURL :
  url.Parse urlStr = Some parsedURL ->
  url.Host parsedURL = "" ->
  isURLAllowedByRobotsTXT w urlStr
  = (true, [ErrorFetchingRobots "http:///robots.txt"]).
Proof.
  intros Hp Hhost. unfold isURLAllowedByRobotsTXT. rewrite Hp, Hhost.
  reflexivity.
Qed.

Lemma gate_allows_hostless_url_witness :
  url.Parse "mailto:webmaster@c.test"
  = Some (url.mkURL "mailto" "webmaster@c.test" "" "" "" "")
  /\ isURLAllowedByRobotsTXT deny_all "mailto:webmaster@c.test"
     = (true, [ErrorFetchingRobots "http:///robots.txt"]).
Proof.
  split; [reflexivity|].
  apply (gate_allows_hostless_url deny_all "mailto:webmaster@c.test"
           (url.mkURL "mailto" "webmaster@c.test" "" "" "" ""));
    reflexivity.
Defined.

(** X9. [InitializeCrawling] gives each of the five seeds a goroutine
    (five is below the cap of ten); in every world and for every order of
    arrival the site map has a key for exactly the seeds the gate allows,
    and the drain loop receives at most ten values. *)
Theorem InitializeCrawling_crawls_every_seed w files crawled result :
  InitializeCrawling w files crawled result ->
  launched getURLsToCrawl 10 = getURLsToCrawl
  /\ (forall k, k ∈ dom (buildSiteMap crawled)
                <-> k ∈ URL <$> getURLsToCrawl /\ allowed w k = true)
  /\ (length crawled <= 10)%nat.
Proof.
  intros Hrun. split; [reflexivity|]. split.
  - intros k.
    rewrite (run_siteMap_keys w _ _ _ _ _ k Hrun).
    change (launched getURLsToCrawl 10) with getURLsToCrawl.
    rewrite list_elem_of_fmap. split.
    + intros (u & Hu & <- & Hal). eauto.
    + intros [(u & -> & Hu) Hal]. eauto.
  - by destruct (run_drained_count w _ _ _ _ _ Hrun) as [_ H].
Qed.

Lemma InitializeCrawling_crawls_every_seed_witness :
  InitializeCrawling three_hosts ∅ getURLsToCrawl
    (createSiteMap three_hosts getURLsToCrawl ∅)
  /\ launched getURLsToCrawl 10 = getURLsToCrawl
  /\ (forall k, k ∈ dom (buildSiteMap getURLsToCrawl)
                <-> k ∈ URL <$> getURLsToCrawl /\ allowed three_hosts k = true)
  /\ (length getURLsToCrawl <= 10)%nat.
Proof.
  assert (InitializeCrawling three_hosts ∅ getURLsToCrawl
            (createSiteMap three_hosts getURLsToCrawl ∅)) as H.
  { split; [|reflexivity].
    exact (Interleaves_concat ((fun u => [u]) <$> getURLsToCrawl)). }
  split; [exact H|].
  exact (InitializeCrawling_crawls_every_seed three_hosts ∅ getURLsToCrawl _ H).
Defined.

(** ** The table scrapers *)

Section rows.
Context {T : Type} (convert : goquery.Selection -> T).
Context (row : nat -> goquery.Selection -> list T -> list T).
Hypothesis row_eq : forall i r data,
  row i r data = if (i =? 0)%nat then data else data ++ [convert r].

Lemma Each_from_rows i rows data :
  goquery.Each_from i row rows data
  = data ++ (convert <$> if (i =? 0)%nat then drop 1 rows else rows).
Proof.
  revert i data. induction rows as [|r rows IH]; intros i data; simpl.
  - destruct (i =? 0)%nat; by rewrite app_nil_r.
  - rewrite IH, row_eq. simpl. destruct i as [|i]; simpl.
    + by rewrite drop_0.
    + by rewrite <- app_assoc.
Qed.

Lemma Each_rows rows :
  goquery.Each row rows [] = convert <$> drop 1 rows.
Proof. unfold goquery.Each. by rewrite Each_from_rows. Qed.
End rows.

Section cells.
Context {T : Type} (fields : T -> list string).
Context (cellf : nat -> goquery.Selection -> T -> T).
Hypothesis cellf_fields : forall i c x,
  fields (cellf i c x) = <[i := goquery.Text c]> (fields x).

Lemma Each_from_fields_lookup i cells x k :
  fields (goquery.Each_from i cellf cells x) !! k
  = if decide ((i <= k < i + length cells)%nat /\ (k < length (fields x))%nat)
    then (goquery.Text <$> cells) !! (k - i)%nat
    else fields x !! k.
Proof.
  revert i x. induction cells as [|c cells IH]; intros i x; simpl.
  - case_decide; [lia | done].
  - rewrite IH, cellf_fields, length_insert.
    destruct (decide (k = i)) as [->|Hne].
    + rewrite Nat.sub_diag. simpl.
      destruct (decide (i < length (fields x))%nat).
      * rewrite list_lookup_insert_eq by done.
        repeat case_decide; try lia; done.
      * rewrite list_insert_ge by lia.
        repeat case_decide; try lia; done.
    + rewrite list_lookup_insert_ne by done.
      repeat case_decide; try lia; try done.
      replace (k - i)%nat with (S (k - S i)) by lia. done.
Qed.

(** The record built from the cells of a row: field number [k] holds
    the text of cell number [k], or stays empty when the row has no such
    cell; cells beyond the last field are dropped. *)
Lemma Each_fields n cells zero :
  fields zero = replicate n "" ->
  fields (goquery.Each cellf cells zero)
  = take n ((goquery.Text <$> cells) ++ replicate n "").
Proof.
  intros Hzero. apply list_eq. intros k. unfold goquery.Each.
  rewrite Each_from_fields_lookup, Hzero, length_replicate, Nat.sub_0_r.
  destruct (decide (k < n)%nat) as [Hk|Hk].
  - rewrite lookup_take_lt by done.
    destruct (decide (k < length cells)%nat) as [Hc|Hc].
    + rewrite lookup_app_l by (by rewrite length_fmap).
      case_decide; [done | lia].
    + rewrite lookup_app_r by (rewrite length_fmap; lia).
      rewrite length_fmap, !lookup_replicate_2 by lia.
      case_decide; [lia | done].
  - rewrite lookup_take_ge by lia.
    case_decide; [lia|]. apply lookup_replicate_None. lia.
Qed.
End cells.

Ltac by_cell_index i :=
  do 15 (try (destruct i as [|i]; [reflexivity|])); reflexivity.

Lemma airdatatest_cell_fields i c x :
  YearData.fields (airdatatest_cell i c x)
  = <[i := goquery.Text c]> (YearData.fields x).
Proof. by_cell_index i. Qed.

Lemma scrapeInflationData_cell_fields i c x :
  YearData.fields (scrapeInflationData_cell i c x)
  = <[i := goquery.Text c]> (YearData.fields x).
Proof. by_cell_index i. Qed.

Lemma scrapeGasInflationData_cell_fields i c x :
  GasolineData.fields (scrapeGasInflationData_cell i c x)
  = <[i := goquery.Text c]> (GasolineData.fields x).
Proof. by_cell_index i. Qed.

Lemma scrapeHousingData_item_fields i c x :
  PropertyData.fields (scrapeHousingData_item i c x)
  = <[i := goquery.Text c]> (PropertyData.fields x).
Proof. by_cell_index i. Qed.

(** X10. The three table scrapers drop the first row the selector
    matches and nothing else: the records are the conversions of all the
    other rows, in document order, a row without cells included. *)
Theorem table_scrapers_skip_first_row rows :
  goquery.Each airdatatest_row rows []
  = (fun r => goquery.Each airdatatest_cell (goquery.Find r "td") YearData.zero)
      <$> drop 1 rows
  /\ goquery.Each scrapeInflationData_row rows []
     = (fun r => goquery.Each scrapeInflationData_cell (goquery.Find r "td")
                   YearData.zero) <$> drop 1 rows
  /\ goquery.Each scrapeGasInflationData_row rows []
     = (fun r => goquery.Each scrapeGasInflationData_cell (goquery.Find r "td")
                   GasolineData.zero) <$> drop 1 rows.
Proof. repeat split; by apply Each_rows. Qed.

(** X11. A row of [airdatatest] becomes a record by position: the
    fourteen fields, from [Year] to [Avg], hold the texts of the first
    fourteen cells; a field whose cell is missing is empty and a
    fifteenth cell or later is ignored. *)
Theorem airdatatest_fields_by_position cells :
  YearData.fields (goquery.Each airdatatest_cell cells YearData.zero)
  = take 14 ((goquery.Text <$> cells) ++ replicate 14 "").
Proof.
  apply (Each_fields YearData.fields airdatatest_cell airdatatest_cell_fields 14).
  reflexivity.
Qed.

Lemma YearData_fields_inj x y : YearData.fields x = YearData.fields y -> x = y.
Proof. destruct x, y. simpl. intros H. by simplify_eq. Qed.

(** X12. [scrapeInflationData] builds from a document the same records
    as [airdatatest]: assigning [Avg] twice in the last case changes
    nothing. *)
Theorem scrapeInflationData_same_records rows :
  goquery.Each scrapeInflationData_row rows []
  = goquery.Each airdatatest_row rows [].
Proof.
  rewrite (Each_rows _ scrapeInflationData_row (fun _ _ _ => eq_refl)).
  rewrite (Each_rows _ airdatatest_row (fun _ _ _ => eq_refl)).
  apply list_fmap_ext. intros _ r _. apply YearData_fields_inj.
  rewrite (Each_fields YearData.fields scrapeInflationData_cell
             scrapeInflationData_cell_fields 14) by reflexivity.
  by rewrite (Each_fields YearData.fields airdatatest_cell
                airdatatest_cell_fields 14) by reflexivity.
Qed.

(** X13. A row of [scrapeGasInflationData] becomes a record by position:
    the four fields hold the texts of the first four cells, empty where
    the cell is missing; further cells are ignored. *)
Theorem scrapeGasInflationData_fields_by_position cells :
  GasolineData.fields
    (goquery.Each scrapeGasInflationData_cell cells GasolineData.zero)
  = take 4 ((goquery.Text <$> cells) ++ replicate 4 "").
Proof.
  apply (Each_fields GasolineData.fields scrapeGasInflationData_cell
           scrapeGasInflationData_cell_fields 4).
  reflexivity.
Qed.

Lemma Each_from_cards i cards properties :
  goquery.Each_from i scrapeHousingData_card cards properties
  = properties
    ++ ((fun s => goquery.Each scrapeHousingData_item (goquery.Find s "div")
                    PropertyData.zero) <$> cards).
Proof.
  revert i properties.
  induction cards as [|s cards IH]; intros i properties; simpl.
  - by rewrite app_nil_r.
  - rewrite IH. unfold scrapeHousingData_card. by rewrite <- app_assoc.
Qed.

(** X14. [scrapeHousingData] keeps every matched card, the first one
    too, in document order, and fills the ten fields of a card's record
    by position from the [div] elements inside the card: empty where
    there is none, the eleventh and later ignored. *)
Theorem scrapeHousingData_keeps_every_card cards :
  goquery.Each scrapeHousingData_card cards []
  = (fun s => goquery.Each scrapeHousingData_item (goquery.Find s "div")
                PropertyData.zero) <$> cards
  /\ length (goquery.Each scrapeHousingData_card cards []) = length cards
  /\ forall items,
       PropertyData.fields
         (goquery.Each scrapeHousingData_item items PropertyData.zero)
       = take 10 ((goquery.Text <$> items) ++ replicate 10 "").
Proof.
  assert (goquery.Each scrapeHousingData_card cards []
          = (fun s => goquery.Each scrapeHousingData_item (goquery.Find s "div")
                        PropertyData.zero) <$> cards) as H.
  { unfold goquery.Each at 1. by rewrite Each_from_cards. }
  split; [done|]. split; [by rewrite H, length_fmap|].
  intros items.
  apply (Each_fields PropertyData.fields scrapeHousingData_item
           scrapeHousingData_item_fields 10).
  reflexivity.
Qed.


Ltac scraper_shape :=
  match goal with
  | |- context [http_Get ?w ?u] => destruct (http_Get w u) as [res|]; [|by left; eauto]
  end;
  destruct (negb _); [by left; eauto|];
  match goal with
  | |- context [NewDocumentFromReader ?e ?b] =>
      destruct (NewDocumentFromReader e b) as [doc|]; [|by left; eauto]
  end;
  match goal with
  | |- context [let '(_, _) := ?m in _] =>
      destruct m as [jsonData [err|]]; [by left; eauto|]
  end;
  match goal with
  | |- context [WriteFile_error ?w ?n ?d] =>
      destruct (WriteFile_error w n d); [by left; eauto | by right; eauto]
  end.

(** Whether a scraper comes back does not depend on the files it finds;
    when it does, it has set its own file. *)
Lemma airdatatest_shape w e :
  (exists x, forall files, airdatatest w e files = Exited x)
  \/ (exists d, forall files,
        airdatatest w e files = Returned (<["airfare_data.json" := d]> files)).
Proof. unfold airdatatest. scraper_shape. Qed.

Lemma scrapeInflationData_shape w e :
  (exists x, forall files, scrapeInflationData w e files = Exited x)
  \/ (exists d, forall files,
        scrapeInflationData w e files
        = Returned (<["inflation_data.json" := d]> files)).
Proof. unfold scrapeInflationData. scraper_shape. Qed.

Lemma scrapeGasInflationData_shape w e :
  (exists x, forall files, scrapeGasInflationData w e files = Exited x)
  \/ (exists d, forall files,
        scrapeGasInflationData w e files
        = Returned (<["gasoline_data.json" := d]> files)).
Proof. unfold scrapeGasInflationData. scraper_shape. Qed.

Lemma scrapeHousingData_shape w e :
  (exists x, forall files, scrapeHousingData w e files = Exited x)
  \/ (exists d, forall files,
        scrapeHousingData w e files
        = Returned (<["property_data.json" := d]> files)).
Proof. unfold scrapeHousingData. scraper_shape. Qed.

(** X16. [main] comes back exactly when each of the four scrapers comes
    back: nothing that happens in the crawl (a denied or failed task, a
    site map that cannot be written) ends the process, and the first
    scraper that fails keeps the later ones from running.  When [main]
    comes back the four data files are written. *)
Theorem main_returns_iff_scrapers_return w e files crawled outcome :
  main w e files crawled outcome ->
  returns outcome
  = returns (airdatatest w e ∅) && returns (scrapeInflationData w e ∅)
    && returns (scrapeGasInflationData w e ∅)
    && returns (scrapeHousingData w e ∅)
  /\ forall f name,
       outcome = Returned f ->
       name ∈ ["airfare_data.json"; "inflation_data.json";
               "gasoline_data.json"; "property_data.json"] ->
       is_Some (f !! name).
Proof.
  intros (result & _ & ->).
  destruct (airdatatest_shape w e) as [[x1 H1]|[d1 H1]]; rewrite !H1; simpl;
    [by split|].
  destruct (scrapeInflationData_shape w e) as [[x2 H2]|[d2 H2]];
    rewrite !H2; simpl; [by split|].
  destruct (scrapeGasInflationData_shape w e) as [[x3 H3]|[d3 H3]];
    rewrite !H3; simpl; [by split|].
  destruct (scrapeHousingData_shape w e) as [[x4 H4]|[d4 H4]];
    rewrite !H4; simpl; [by split|].
  split; [done|]. intros f name [= <-] Hname.
  rewrite !elem_of_cons, elem_of_nil in Hname.
  destruct Hname as [->|[->|[->|[->|[]]]]];
    rewrite ?lookup_insert_eq, ?lookup_insert_ne by done; eauto;
    repeat (rewrite lookup_insert_ne by done); rewrite lookup_insert_eq; eauto.
Qed.

Lemma main_returns_iff_scrapers_return_witness :
  exists outcome,
    main scraper_pages sample_scraping ∅ getURLsToCrawl outcome
    /\ returns outcome = true
    /\ forall f name,
         outcome = Returned f ->
         name ∈ ["airfare_data.json"; "inflation_data.json";
                 "gasoline_data.json"; "property_data.json"] ->
         is_Some (f !! name).
Proof.
  eexists.
  assert (main scraper_pages sample_scraping ∅ getURLsToCrawl
            (and_then (airdatatest scraper_pages sample_scraping
                         (createSiteMap scraper_pages getURLsToCrawl ∅).1.2)
               (fun files =>
                and_then (scrapeInflationData scraper_pages sample_scraping files)
                  (fun files =>
                   and_then (scrapeGasInflationData scraper_pages sample_scraping files)
                     (fun files =>
                      scrapeHousingData scraper_pages sample_scraping files)))))
    as H.
  { eexists. split; [|reflexivity]. split; [|reflexivity].
    exact (Interleaves_concat ((fun u => [u]) <$> getURLsToCrawl)). }
  split; [exact H|].
  destruct (main_returns_iff_scrapers_return scraper_pages sample_scraping ∅
              getURLsToCrawl _ H) as [Hret Hfiles].
  split; [exact Hret | exact Hfiles].
Defined.

(** ** Package dal *)

(** X17. [InsertPrediction] first asks whether the engine exists and
    executes the INSERT into [predictions] only when that query succeeds
    and answers true; it runs no other statement.  It returns nil only
    in that case. *)
Theorem InsertPrediction_inserts_only_for_known_engine db engineID info h :
  let known :=
    match dal.Scan_bool db h
            "SELECT EXISTS(SELECT 1 FROM scraper_engine WHERE engine_id=?)"
            [engineID] with
    | inr true => true
    | _ => false
    end in
  exists new,
    (dal.InsertPrediction db engineID info h).2 = h ++ new
    /\ List.filter dal.is_statement new
       = dal.QueryRow
           "SELECT EXISTS(SELECT 1 FROM scraper_engine WHERE engine_id=?)"
           [engineID]
         :: (if known
             then [dal.Exec
                     "INSERT INTO predictions (engine_id, prediction_info) VALUES (?, ?)"
                     [engineID; info]]
             else [])
    /\ ((dal.InsertPrediction db engineID info h).1 = None -> known = true).
Proof.
  intros known. subst known. unfold dal.InsertPrediction, dal.EngineIDExists.
  destruct (dal.Scan_bool db h _ [engineID]) as [err|[|]]; simpl.
  - eexists. split; [rewrite <- !app_assoc; reflexivity|]. by split.
  - destruct (dal.Exec_error db _ _ _); simpl;
      (eexists; split; [rewrite <- !app_assoc; reflexivity|]; by split).
  - eexists. split; [rewrite <- !app_assoc; reflexivity|]. by split.
Qed.

(** X18. The three functions of the package return an error exactly when
    they log a line with code 400: [EngineIDExists], [InsertPrediction]
    and [InsertSampleEngine] never fail silently and never log a failure
    they do not return. *)
Theorem dal_error_iff_400_logged db engineID info name description h :
  (exists new,
     (dal.EngineIDExists db engineID h).2 = h ++ new
     /\ ((dal.EngineIDExists db engineID h).1.2 = None
         <-> List.filter dal.is_error_log new = []))
  /\ (exists new,
        (dal.InsertPrediction db engineID info h).2 = h ++ new
        /\ ((dal.InsertPrediction db engineID info h).1 = None
            <-> List.filter dal.is_error_log new = []))
  /\ (exists new,
        (dal.InsertSampleEngine db engineID name description h).2 = h ++ new
        /\ ((dal.InsertSampleEngine db engineID name description h).1 = None
            <-> List.filter dal.is_error_log new = [])).
Proof.
  unfold dal.InsertPrediction, dal.EngineIDExists, dal.InsertSampleEngine.
  split; [|split].
  - destruct (dal.Scan_bool db h _ [engineID]) as [err|b]; simpl;
      (eexists; split; [rewrite <- !app_assoc; reflexivity|]; by split).
  - destruct (dal.Scan_bool db h _ [engineID]) as [err|[|]]; simpl;
      [|destruct (dal.Exec_error db _ _ _); simpl|];
      (eexists; split; [rewrite <- !app_assoc; reflexivity|]; by split).
  - destruct (dal.Exec_error db h _ _); simpl;
      (eexists; split; [rewrite <- !app_assoc; reflexivity|]; by split).
Qed.

(** ** The further properties on concrete inputs *)

Lemma crawlURL_at_most_one_request_witness :
  allowed three_hosts (URL denied_task) = false
  /\ exists rs,
       wire (crawlURL three_hosts denied_task idle) = wire idle ++ rs
       /\ (length rs <= 1)%nat
       /\ Forall (fun r => req_URL r = URL denied_task) rs
       /\ (allowed three_hosts (URL denied_task) = false
           \/ URL denied_task = "" -> rs = []).
Proof.
  split; [reflexivity|].
  exact (crawlURL_at_most_one_request three_hosts denied_task idle).
Defined.

Lemma siteMap_keys_are_allowed_tasks_witness :
  let urls := [denied_task; missing_task; ok_task] in
  let crawled := [missing_task; ok_task; ok_crawled] in
  threadedCrawl three_hosts urls 10 ∅ crawled (createSiteMap three_hosts crawled ∅)
  /\ ("http://b.test/missing" ∈ dom (buildSiteMap crawled)
      <-> exists u, u ∈ launched urls 10
                    /\ URL u = "http://b.test/missing"
                    /\ allowed three_hosts "http://b.test/missing" = true).
Proof.
  intros urls crawled.
  assert (threadedCrawl three_hosts urls 10 ∅ crawled
            (createSiteMap three_hosts crawled ∅)) as H.
  { split; [exact three_hosts_run | reflexivity]. }
  split; [exact H|].
  exact (siteMap_keys_are_allowed_tasks three_hosts urls 10 ∅ crawled _
           "http://b.test/missing" H).
Defined.


Lemma InsertPrediction_inserts_only_for_known_engine_witness :
  (exists new,
     (dal.InsertPrediction dal.one_engine "e2" "info" []).2 = [] ++ new
     /\ List.filter dal.is_statement new
        = [dal.QueryRow
             "SELECT EXISTS(SELECT 1 FROM scraper_engine WHERE engine_id=?)"
             ["e2"]]
     /\ ((dal.InsertPrediction dal.one_engine "e2" "info" []).1 = None
         -> false = true))
  /\ (dal.InsertPrediction dal.one_engine "e2" "info" []).1
     = Some "engine_id e2 does not exist"
  /\ (dal.InsertPrediction dal.one_engine "e1" "info" []).1 = None.
Proof.
  split; [|split; reflexivity].
  exact (InsertPrediction_inserts_only_for_known_engine dal.one_engine
           "e2" "info" []).
Defined.
